(** * Agent-node execution core: rate limiter, retry controller, prompt
      optimizer, tool resolver and approval store.

    A shallow embedding of the TypeScript sources

      - [lib/workflow/token-bucket.ts]      (module [TokenBucket])
      - [lib/workflow/token-optimizer.ts]   (module [TokenOptimizer])
      - the rate-limit utilities imported as [../rate-limiter]
                                            (module [RateLimiter])
      - the agent-node executor that imports them
                                            (module [Agent])
      - [lib/mcp/resolver.ts]               (module [Resolver])
      - [lib/database/approvals.ts]         (module [Approvals])

    Conventions.  JavaScript numbers that the code only ever uses as
    integers (lengths, milliseconds, parsed header values) are [Z]; the
    token count of a bucket, which the code computes with fractions of a
    second, is an exact rational [Q] (rounding of IEEE doubles is not
    modelled).  Strings are [string]: a sequence of code units below 256.
    Exceptions are explicit: a computation that may throw returns [res]. *)

From Stdlib Require Import ZArith QArith Qminmax String Ascii List Bool Lia.
From Stdlib Require Import DecimalString Lqa.
Import ListNotations.

Local Open Scope Z_scope.

(* ------------------------------------------------------------------ *)
(** * Token bucket  (lib/workflow/token-bucket.ts)                      *)
(* ------------------------------------------------------------------ *)

Module TokenBucket.

Local Open Scope Q_scope.

(** The four private fields of [class TokenBucket]; [lock] is never read. *)
Record t : Type := mk {
  tokens : Q;
  lastRefill : Z;
  tokensPerSecond : Q;
  maxTokens : Q
}.

(** [constructor(tokensPerSecond = 5, maxTokens = 10)]; [now] is the value
    [Date.now()] returns inside the constructor. *)
Definition new (tokensPerSecond maxTokens : Q) (now : Z) : t :=
  {| tokens := maxTokens;
     lastRefill := now;
     tokensPerSecond := tokensPerSecond;
     maxTokens := maxTokens |}.

(** [const elapsed = (now - this.lastRefill) / 1000] *)
Definition elapsed (now : Z) (b : t) : Q :=
  inject_Z (now - lastRefill b) / 1000.

(** [private refillTokens(): void], with [now = Date.now()]. *)
Definition refillTokens (now : Z) (b : t) : t :=
  let newTokens := elapsed now b * tokensPerSecond b in
  {| tokens := Qmin (maxTokens b) (tokens b + newTokens);
     lastRefill := now;
     tokensPerSecond := tokensPerSecond b;
     maxTokens := maxTokens b |}.

(** [public tryConsume(): boolean] *)
Definition tryConsume (now : Z) (b : t) : bool * t :=
  let b1 := refillTokens now b in
  if Qle_bool 1 (tokens b1)
  then (true, {| tokens := tokens b1 - 1;
                 lastRefill := lastRefill b1;
                 tokensPerSecond := tokensPerSecond b1;
                 maxTokens := maxTokens b1 |})
  else (false, b1).

(** [public getTokenCount(): number] *)
Definition getTokenCount (now : Z) (b : t) : Q * t :=
  let b1 := refillTokens now b in (tokens b1, b1).

(** A JavaScript number that is a rational or [Infinity] (a division by a
    zero refill rate). *)
Inductive millis : Type :=
| Finite (q : Q)
| Infinite.

(** [public getTimeUntilNextToken(): number] *)
Definition getTimeUntilNextToken (now : Z) (b : t) : millis * t :=
  let b1 := refillTokens now b in
  if Qle_bool 1 (tokens b1) then (Finite 0, b1)
  else if Qeq_bool (tokensPerSecond b1) 0 then (Infinite, b1)
  else (Finite ((1 - tokens b1) / tokensPerSecond b1 * 1000), b1).

(** ** The wall clock and [waitForToken]

    Every call of [Date.now()] takes the next reading of the clock:
    [clock i] is what the [i]-th call returns.  A [world] is a bucket
    together with the number of readings taken so far. *)

Section Clock.

Variable clock : nat -> Z.

Record world : Type := mkWorld {
  bucket : t;
  tick : nat
}.

Definition Date_now (w : world) : Z * world :=
  (clock (tick w), {| bucket := bucket w; tick := S (tick w) |}).

Definition lift {A : Type} (f : Z -> t -> A * t) (w : world) : A * world :=
  let (now, w1) := Date_now w in
  let (a, b') := f now (bucket w1) in
  (a, {| bucket := b'; tick := tick w1 |}).

(** The loop of [waitForToken]:
    [while (Date.now() - startTime < timeoutMs) { if (this.tryConsume())
    return true; await sleep(100) } return false].  [fuel] bounds the
    number of polls; [None] is a loop still polling when it is spent. *)
Fixpoint waitLoop (fuel : nat) (startTime timeoutMs : Z) (w : world)
  : option bool * world :=
  match fuel with
  | O => (None, w)
  | S fuel' =>
      let (now, w1) := Date_now w in
      if (now - startTime <? timeoutMs)%Z then
        let (ok, w2) := lift tryConsume w1 in
        if ok then (Some true, w2)
        else waitLoop fuel' startTime timeoutMs w2
      else (Some false, w1)
  end.

(** [public async waitForToken(timeoutMs = 30000): Promise<boolean>] *)
Definition waitForToken (fuel : nat) (timeoutMs : Z) (w : world)
  : option bool * world :=
  let (startTime, w1) := Date_now w in
  waitLoop fuel startTime timeoutMs w1.

(** The public operations of the class. *)
Inductive op : Type :=
| TryConsume
| WaitForToken (timeoutMs : Z) (fuel : nat)
| GetTokenCount
| GetTimeUntilNextToken.

Definition exec (o : op) (w : world) : world :=
  match o with
  | TryConsume => snd (lift tryConsume w)
  | WaitForToken timeoutMs fuel => snd (waitForToken fuel timeoutMs w)
  | GetTokenCount => snd (lift getTokenCount w)
  | GetTimeUntilNextToken => snd (lift getTimeUntilNextToken w)
  end.

Definition run (ops : list op) (w : world) : world :=
  fold_left (fun w o => exec o w) ops w.

(** A bucket is created by [new TokenBucket(rate, cap)], which takes the
    first reading of the clock. *)
Definition create (rate cap : Q) : world :=
  {| bucket := new rate cap (clock 0); tick := 1 |}.

End Clock.







End TokenBucket.

(* ------------------------------------------------------------------ *)
(** * Provider rate registry  (lib/workflow/token-bucket.ts)            *)
(* ------------------------------------------------------------------ *)

Module ProviderRateLimiter.

Local Open Scope string_scope.

(** [private buckets: Map<string, TokenBucket>]: the entries in insertion
    order.  The buckets are objects, so an operation on the bucket that
    [getBucket] returns is an update of the entry it came from. *)
Definition registry : Type := list (string * TokenBucket.t).

(** [constructor()]; the three readings of [Date.now()] are those of the
    three [new TokenBucket(...)]. *)
Definition new (now1 now2 now3 : Z) : registry :=
  [ ("anthropic", TokenBucket.new 3 5 now1);
    ("openai", TokenBucket.new 10 20 now2);
    ("groq", TokenBucket.new 15 30 now3) ].

(** [this.buckets.get(provider)] *)
Fixpoint get (provider : string) (r : registry) : option TokenBucket.t :=
  match r with
  | nil => None
  | (k, b) :: rest => if String.eqb provider k then Some b else get provider rest
  end.

(** The entry whose bucket [getBucket(provider)] returns:
    [this.buckets.get(provider) || this.buckets.get('anthropic')!]. *)
Definition bucketKey (provider : string) (r : registry) : string :=
  match get provider r with
  | Some _ => provider
  | None => "anthropic"
  end.

(** [public getBucket(provider: string): TokenBucket] *)
Definition getBucket (provider : string) (r : registry) : option TokenBucket.t :=
  get (bucketKey provider r) r.

(** The registry after the bucket of entry [k] has become [b]. *)
Fixpoint store (k : string) (b : TokenBucket.t) (r : registry) : registry :=
  match r with
  | nil => nil
  | (k', b') :: rest =>
      if String.eqb k k' then (k', b) :: rest else (k', b') :: store k b rest
  end.

(** [getBucket(provider).tryConsume()], one poll of
    [waitForToken(provider, timeoutMs)], at the time [now]. *)
Definition tryConsume (provider : string) (now : Z) (r : registry)
  : bool * registry :=
  match getBucket provider r with
  | Some b =>
      let (ok, b') := TokenBucket.tryConsume now b in
      (ok, store (bucketKey provider r) b' r)
  | None => (false, r)
  end.

(** The registry still has the three entries its constructor made. *)
Definition threeProviders (r : registry) : Prop :=
  map fst r = ["anthropic"; "openai"; "groq"].

End ProviderRateLimiter.

(* ------------------------------------------------------------------ *)
(** * JavaScript strings and arrays                                     *)
(* ------------------------------------------------------------------ *)

Module Js.

Local Open Scope string_scope.
Local Open Scope Z_scope.

(** [s.length] *)
Definition len (s : string) : Z := Z.of_nat (String.length s).

(** [hay.includes(needle)] *)
Fixpoint includes (needle hay : string) : bool :=
  if String.prefix needle hay then true
  else match hay with
       | EmptyString => false
       | String _ rest => includes needle rest
       end.

Definition LF : ascii := ascii_of_nat 10.

(** White space and line terminators below 256, the characters
    [String.prototype.trim] strips. *)
Definition isWhiteSpace (c : ascii) : bool :=
  let n := nat_of_ascii c in
  ((9 <=? n) && (n <=? 13))%nat || (n =? 32)%nat || (n =? 160)%nat.

Fixpoint trimStart (s : string) : string :=
  match s with
  | EmptyString => EmptyString
  | String c rest => if isWhiteSpace c then trimStart rest else s
  end.

Fixpoint trimEnd (s : string) : string :=
  match s with
  | EmptyString => EmptyString
  | String c rest =>
      match trimEnd rest with
      | EmptyString => if isWhiteSpace c then EmptyString else String c EmptyString
      | r => String c r
      end
  end.

(** [s.trim()] *)
Definition trim (s : string) : string := trimEnd (trimStart s).

(** Pushes a character on the piece a split is building. *)
Definition onHead (c : ascii) (pieces : list string) : list string :=
  match pieces with
  | [] => [String c EmptyString]
  | p :: ps => String c p :: ps
  end.

(** [s.split(sep)] for a separator of one character. *)
Fixpoint splitChar (sep : ascii) (s : string) : list string :=
  match s with
  | EmptyString => [EmptyString]
  | String c rest =>
      if Ascii.eqb c sep then EmptyString :: splitChar sep rest
      else onHead c (splitChar sep rest)
  end.

(** [s.split(/[...]+/)] for a character class [isSep]: a maximal run of
    separators is one cut.  [inRun] says that the previous character was a
    separator. *)
Fixpoint splitRuns (isSep : ascii -> bool) (inRun : bool) (s : string)
  : list string :=
  match s with
  | EmptyString => [EmptyString]
  | String c rest =>
      if isSep c then
        if inRun then splitRuns isSep true rest
        else EmptyString :: splitRuns isSep true rest
      else onHead c (splitRuns isSep false rest)
  end.

(** [pieces.join(sep)] *)
Fixpoint join (sep : string) (pieces : list string) : string :=
  match pieces with
  | [] => EmptyString
  | [p] => p
  | p :: ps => p ++ sep ++ join sep ps
  end.

(** [xs.slice(-n)] for [n > 0] *)
Definition sliceLast {A : Type} (n : nat) (xs : list A) : list A :=
  skipn (List.length xs - n) xs.

(** [xs.slice(0, e)]: a negative [e] counts from the end. *)
Definition sliceTo {A : Type} (e : Z) (xs : list A) : list A :=
  if e <? 0 then firstn (Z.to_nat (Z.of_nat (List.length xs) + e)) xs
  else firstn (Z.to_nat e) xs.

Fixpoint dropChars (n : nat) (s : string) : string :=
  match n, s with
  | O, _ => s
  | S n', String _ rest => dropChars n' rest
  | S _, EmptyString => EmptyString
  end.

Fixpoint takeChars (n : nat) (s : string) : string :=
  match n, s with
  | S n', String c rest => String c (takeChars n' rest)
  | _, _ => EmptyString
  end.

(** [s.substring(0, e)]: indices are clamped to [0 .. s.length]. *)
Definition substringTo (e : Z) (s : string) : string :=
  takeChars (Z.to_nat e) s.

(** [s.substring(b)] *)
Definition substringFrom (b : Z) (s : string) : string :=
  dropChars (Z.to_nat b) s.

End Js.

(* ------------------------------------------------------------------ *)
(** * Prompt optimizer  (lib/workflow/token-optimizer.ts)               *)
(* ------------------------------------------------------------------ *)

Module TokenOptimizer.

Import Js.
Local Open Scope string_scope.
Local Open Scope Z_scope.

(** [estimateTokenCount]: [Math.ceil(text.length / 4)] *)
Definition estimateTokenCount (text : string) : Z := (len text + 3) / 4.

(** The test of the loop over the lines in [optimizeLargeContent]. *)
Definition isEssential (trimmed : string) : bool :=
  let n := len trimmed in
  ((20 <? n) && (n <? 100) &&
     (includes "Mouse" trimmed || includes "Wireless" trimmed
      || includes "Bluetooth" trimmed))
  || (includes "$" trimmed && (n <? 50))
  || ((includes "stars" trimmed || includes "rating" trimmed) && (n <? 50))
  || ((includes "DPI" trimmed || includes "battery" trimmed
       || includes "rechargeable" trimmed) && (n <? 100))
  || ((includes "bought" trimmed || includes "customers" trimmed)
      && (n <? 50)).

Fixpoint essentialLines (lines : list string) : list string :=
  match lines with
  | [] => []
  | line :: rest =>
      let trimmed := trim line in
      if isEssential trimmed then trimmed :: essentialLines rest
      else essentialLines rest
  end.

Definition truncationMarker : string :=
  String LF (String LF "... (content truncated) ...") ++ String LF (String LF "").

(** [function optimizeLargeContent(content, maxTokens)] *)
Definition optimizeLargeContent (content : string) (maxTokens : Z) : string :=
  let maxChars := maxTokens * 4 in
  let kept := essentialLines (splitChar LF content) in
  let firstPart := substringTo (maxChars / 2) content in
  let lastPart := substringFrom (len content - maxChars / 2) content in
  let truncated := firstPart ++ truncationMarker ++ lastPart in
  if (0 <? Z.of_nat (List.length kept))%Z then
    let optimized := join (String LF "") kept in
    if (len optimized <=? maxChars)%Z then optimized else truncated
  else truncated.

Definition isSentenceEnd (c : ascii) : bool :=
  Ascii.eqb c "." || Ascii.eqb c "!" || Ascii.eqb c "?".

(** [export function optimizePrompt(prompt, maxTokens = 8000)].
    [sentences[0]] of an empty array is [undefined], which [join] prints as
    the empty string.  [Math.floor((maxTokens / optimized.length) *
    words.length)] is the exact quotient. *)
Definition optimizePrompt (prompt : string) (maxTokens : Z) : string :=
  if (len prompt <=? maxTokens)%Z then prompt
  else if (20000 <? len prompt)%Z then optimizeLargeContent prompt maxTokens
  else
    let sentences :=
      filter (fun s => (0 <? len (trim s))%Z) (splitRuns isSentenceEnd false prompt) in
    let importantSentences := nth 0 sentences "" :: sliceLast 3 sentences in
    let optimized := join ". " importantSentences in
    if (maxTokens <? len optimized)%Z then
      let words := splitChar " " optimized in
      let targetWords :=
        (maxTokens * Z.of_nat (List.length words)) / len optimized in
      join " " (sliceTo targetWords words) ++ "..."
    else optimized.

(** [export function isPromptTooLong(prompt, contextWindow = 200000)]:
    [estimatedTokens > contextWindow * 0.8].  For an integer window the
    double [contextWindow * 0.8] is the integer [4 * contextWindow / 5]
    when that is one and is not an integer otherwise, so the test is the
    comparison of [5 * estimatedTokens] with [4 * contextWindow]. *)
Definition isPromptTooLong (prompt : string) (contextWindow : Z) : bool :=
  4 * contextWindow <? 5 * estimateTokenCount prompt.

End TokenOptimizer.

(* ------------------------------------------------------------------ *)
(** * Thrown values, results and numbers                                *)
(* ------------------------------------------------------------------ *)

(** A number that is an integer or [NaN] ([None]): what [parseInt] and
    [Date.prototype.getTime] return. *)
Definition number : Type := option Z.

(** What a [throw] carries.  [ErrorObj] is an [instanceof Error] with its
    [message]; either kind may have a [headers] property, given by its
    [get] method (the response headers an SDK attaches to an API error). *)
Inductive thrown : Type :=
| ErrorObj (message : string) (headers : option (string -> option string))
| NonError (headers : option (string -> option string)).

(** [new Error(message)] *)
Definition newError (message : string) : thrown := ErrorObj message None.

(** The value of an uninitialised [let]. *)
Definition undefined : thrown := NonError None.

Inductive res (A : Type) : Type :=
| Ok (a : A)
| Throw (e : thrown).

Arguments Ok {A} a.
Arguments Throw {A} e.

(** [try { body } catch (error) { handler(error) }] *)
Definition tryCatch {A : Type} (body : res A) (handler : thrown -> res A)
  : res A :=
  match body with
  | Ok a => Ok a
  | Throw e => handler e
  end.

(* ------------------------------------------------------------------ *)
(** * Rate-limit signal extractor  (imported as ../rate-limiter)        *)
(* ------------------------------------------------------------------ *)

Module RateLimiter.

Import Js.
Local Open Scope string_scope.
Local Open Scope Z_scope.

(** [interface RateLimitInfo] *)
Record RateLimitInfo : Type := mkInfo {
  retryAfter : number;
  resetTime : string;
  remainingTokens : number;
  limitTokens : number;
  outputTokensRemaining : number;
  outputTokensLimit : number;
  requestsRemaining : number;
  requestsLimit : number;
  totalTokensRemaining : number;
  totalTokensLimit : number
}.

(** ** [parseInt(s)] without a radix *)

Definition digitVal (radix : Z) (c : ascii) : option Z :=
  let n := Z.of_nat (nat_of_ascii c) in
  let d := if (48 <=? n) && (n <=? 57) then n - 48
           else if (97 <=? n) && (n <=? 122) then n - 87
           else if (65 <=? n) && (n <=? 90) then n - 55
           else 36 in
  if d <? radix then Some d else None.

Fixpoint digits (radix : Z) (acc : option Z) (s : string) : option Z :=
  match s with
  | EmptyString => acc
  | String c rest =>
      match digitVal radix c with
      | Some d =>
          digits radix
            (Some (match acc with Some a => a * radix + d | None => d end))
            rest
      | None => acc
      end
  end.

Definition parseInt (s : string) : number :=
  let s0 := trimStart s in
  let '(negative, s1) :=
    match s0 with
    | String "-" r => (true, r)
    | String "+" r => (false, r)
    | _ => (false, s0)
    end in
  let '(radix, s2) :=
    match s1 with
    | String "0" (String "x" r) => (16, r)
    | String "0" (String "X" r) => (16, r)
    | _ => (10, s1)
    end in
  match digits radix None s2 with
  | Some v => Some (if negative then - v else v)
  | None => None
  end.

(** [headers.get?.(name) || fallback] *)
Definition headerOr (get : string -> option string) (name fallback : string)
  : string :=
  match get name with
  | Some EmptyString => fallback
  | Some v => v
  | None => fallback
  end.

(** [error?.headers] *)
Definition headersOf (error : thrown) : option (string -> option string) :=
  match error with
  | ErrorObj _ h => h
  | NonError h => h
  end.

(** [export function extractRateLimitInfo(error)] *)
Definition extractRateLimitInfo (error : thrown) : option RateLimitInfo :=
  match headersOf error with
  | None => None
  | Some get =>
      let inputTokensRemaining :=
        parseInt (headerOr get "anthropic-ratelimit-input-tokens-remaining" "0") in
      let inputTokensLimit :=
        parseInt (headerOr get "anthropic-ratelimit-input-tokens-limit" "30000") in
      let outputTokensRemaining :=
        parseInt (headerOr get "anthropic-ratelimit-output-tokens-remaining" "0") in
      let outputTokensLimit :=
        parseInt (headerOr get "anthropic-ratelimit-output-tokens-limit" "8000") in
      let requestsRemaining :=
        parseInt (headerOr get "anthropic-ratelimit-requests-remaining" "0") in
      let requestsLimit :=
        parseInt (headerOr get "anthropic-ratelimit-requests-limit" "50") in
      Some {|
        retryAfter := parseInt (headerOr get "retry-after" "60");
        resetTime := headerOr get "anthropic-ratelimit-input-tokens-reset" "";
        remainingTokens := inputTokensRemaining;
        limitTokens := inputTokensLimit;
        outputTokensRemaining := outputTokensRemaining;
        outputTokensLimit := outputTokensLimit;
        requestsRemaining := requestsRemaining;
        requestsLimit := requestsLimit;
        totalTokensRemaining :=
          parseInt (headerOr get "anthropic-ratelimit-tokens-remaining" "0");
        totalTokensLimit :=
          parseInt (headerOr get "anthropic-ratelimit-tokens-limit" "38000")
      |}
  end.

(** [x === 0] on numbers: [NaN] equals nothing. *)
Definition isZero (x : number) : bool :=
  match x with
  | Some z => z =? 0
  | None => false
  end.

(** [a - b] where [b] is an integer. *)
Definition minus (a : number) (b : Z) : number :=
  match a with
  | Some z => Some (z - b)
  | None => None
  end.

(** [a > b]: false on [NaN]. *)
Definition greater (a : number) (b : Z) : bool :=
  match a with
  | Some z => b <? z
  | None => false
  end.

(** [`${x}`] *)
Definition numberToString (x : number) : string :=
  match x with
  | Some z => NilZero.string_of_int (Z.to_int z)
  | None => "NaN"
  end.


(** The descriptor of a response that has none of the headers the
    extractor reads: its fallback constants. *)
Definition fallbackInfo : RateLimitInfo :=
  {| retryAfter := Some 60; resetTime := "";
     remainingTokens := Some 0; limitTokens := Some 30000;
     outputTokensRemaining := Some 0; outputTokensLimit := Some 8000;
     requestsRemaining := Some 0; requestsLimit := Some 50;
     totalTokensRemaining := Some 0; totalTokensLimit := Some 38000 |}.

Section Environment.

(** The host: the clock reading [new Date().getTime()], the parser behind
    [new Date(s).getTime()], and the two locale formatters. *)
Variable now : Z.
Variable parseDate : string -> number.
Variable toLocaleString : number -> string.
Variable toLocaleTimeString : number -> string.

(** [export function shouldRetry(rateLimitInfo, maxRetries = 3)] *)
Definition shouldRetry (rateLimitInfo : option RateLimitInfo) (maxRetries : Z)
  : bool :=
  match rateLimitInfo with
  | None => false
  | Some info =>
      if maxRetries <=? 0 then false
      else if isZero (remainingTokens info) then
        let timeUntilReset := minus (parseDate (resetTime info)) now in
        if greater timeUntilReset (5 * 60 * 1000) then false else true
      else true
  end.

(** The reset time of the descriptor lies more than five minutes after
    the current time. *)
Definition resetFarAway (d : RateLimitInfo) : Prop :=
  exists reset, parseDate (resetTime d) = Some reset /\
                5 * 60 * 1000 < reset - now.

(** [Math.ceil(x / (1000 * 60))] *)
Definition ceilMinutes (x : number) : number :=
  match x with
  | Some z => Some (- ((- z) / (1000 * 60)))
  | None => None
  end.

(** [export function getRateLimitMessage(rateLimitInfo)] *)
Definition getRateLimitMessage (rateLimitInfo : option RateLimitInfo) : string :=
  match rateLimitInfo with
  | None => "Rate limited. Please wait a moment and try again."
  | Some info =>
      if isZero (remainingTokens info) then
        let resetDate := parseDate (resetTime info) in
        let minutesUntilReset := ceilMinutes (minus resetDate now) in
        "Rate limit exceeded. You've used all "
          ++ toLocaleString (limitTokens info)
          ++ " tokens. Please wait " ++ numberToString minutesUntilReset
          ++ " minutes until the limit resets at "
          ++ toLocaleTimeString resetDate ++ "."
      else
        "Rate limited. " ++ toLocaleString (remainingTokens info)
          ++ " tokens remaining. Please wait "
          ++ numberToString (retryAfter info)
          ++ " seconds before retrying."
  end.

End Environment.

End RateLimiter.

(* ------------------------------------------------------------------ *)
(** * Agent-node executor: dispatch, error mapping and the retry loop   *)
(* ------------------------------------------------------------------ *)

Module Agent.

Import Js RateLimiter.
Local Open Scope string_scope.
Local Open Scope Z_scope.

(** [error instanceof Error ? error.message : 'Unknown error'] *)
Definition messageOf (error : thrown) : string :=
  match error with
  | ErrorObj m _ => m
  | NonError _ => "Unknown error"
  end.

(** [errorMessage.includes('rate limit') || errorMessage.includes('429')] *)
Definition isRateLimitMessage (errorMessage : string) : bool :=
  includes "rate limit" errorMessage || includes "429" errorMessage.

(** [apiKeys?: { anthropic?, groq?, openai?, firecrawl? }] *)
Record ApiKeys : Type := mkKeys {
  anthropic : option string;
  groq : option string;
  openai : option string;
  firecrawl : option string
}.

(** Truthiness of an optional string. *)
Definition present (k : option string) : bool :=
  match k with
  | Some (String _ _) => true
  | _ => false
  end.

Definition keyOr (k : option string) : string :=
  match k with
  | Some v => v
  | None => ""
  end.

(** Splits at the first occurrence of [sep]:
    [(s.substring(0, i), s.substring(i + 1))] for [i = s.indexOf(sep)]. *)
Fixpoint cutAt (sep : ascii) (s : string) : option (string * string) :=
  match s with
  | EmptyString => None
  | String c rest =>
      if Ascii.eqb c sep then Some (EmptyString, rest)
      else match cutAt sep rest with
           | Some (a, b) => Some (String c a, b)
           | None => None
           end
  end.

(** [data.model || 'anthropic/claude-sonnet-4-5-20250929'], then the split
    into provider and model name; no slash means provider [openai]. *)
Definition parseModel (model : option string) : string * string :=
  let modelString :=
    match model with
    | Some (String c r) => String c r
    | _ => "anthropic/claude-sonnet-4-5-20250929"
    end in
  match cutAt "/" modelString with
  | Some (provider, modelName) => (provider, modelName)
  | None => ("openai", modelString)
  end.

(** [node.data.model?.split('/')[0] || 'anthropic']: the bucket the retry
    loop waits on. *)
Definition rateProvider (model : option string) : string :=
  match model with
  | Some m =>
      match hd EmptyString (splitChar "/" m) with
      | EmptyString => "anthropic"
      | p => p
      end
  | None => "anthropic"
  end.

Section Internal.

Variable payload : Type.

(** The host of the formatter of the rate-limit message. *)
Variable now : Z.
Variable parseDate : string -> number.
Variable toLocaleString : number -> string.
Variable toLocaleTimeString : number -> string.

(** The stages of the [try] block that are taken as given: the
    preparation before the credentials check (variable substitution,
    migration, tool resolution), the [MOCK_AGENT_RESPONSE] short cut when
    it returns, the assembly of the messages (prompt optimization, chat
    history), and the provider call with the assembly of the result. *)
Variable prepare : res unit.
Variable mockResponse : option payload.
Variable assemble : res unit.
Variable callProvider : string -> string -> string -> res payload.

(** The chain [if (provider === 'anthropic' && apiKeys?.anthropic) ... else
    if (provider === 'openai' && apiKeys?.openai) ... else if (provider ===
    'groq' && apiKeys?.groq) ... else throw]. *)
Definition dispatch (provider modelName : string) (keys : ApiKeys)
  : res payload :=
  if String.eqb provider "anthropic" && present (anthropic keys)
  then callProvider "anthropic" modelName (keyOr (anthropic keys))
  else if String.eqb provider "openai" && present (openai keys)
  then callProvider "openai" modelName (keyOr (openai keys))
  else if String.eqb provider "groq" && present (groq keys)
  then callProvider "groq" modelName (keyOr (groq keys))
  else Throw (newError ("No API key available for provider: " ++ provider)).

(** The [try] block of [executeAgentNodeInternal]. *)
Definition internalBody (model : option string) (apiKeys : option ApiKeys)
  : res payload :=
  match prepare with
  | Throw e => Throw e
  | Ok _ =>
      match apiKeys with
      | None => Throw (newError "API keys are required for server-side execution")
      | Some keys =>
          match mockResponse with
          | Some r => Ok r
          | None =>
              match assemble with
              | Throw e => Throw e
              | Ok _ =>
                  let (provider, modelName) := parseModel model in
                  dispatch provider modelName keys
              end
          end
      end
  end.

(** The [catch] block of [executeAgentNodeInternal]. *)
Definition userFacing (error : thrown) : res payload :=
  let errorMessage := messageOf error in
  if includes "API key" errorMessage || includes "api_key" errorMessage then
    Throw (newError "Missing API key. Please add your LLM provider key in Settings.")
  else if isRateLimitMessage errorMessage then
    Throw (newError
             (getRateLimitMessage now parseDate toLocaleString
                toLocaleTimeString (extractRateLimitInfo error)))
  else if includes "No API key available" errorMessage then
    Throw (newError "No API key configured. Please add an Anthropic, OpenAI, or Groq API key in your .env.local file.")
  else Throw (newError ("Agent execution failed: " ++ errorMessage)).

(** [async function executeAgentNodeInternal(node, state, apiKeys)] *)
Definition executeAgentNodeInternal (model : option string)
    (apiKeys : option ApiKeys) : res payload :=
  tryCatch (internalBody model apiKeys) userFacing.

End Internal.

(** The selected provider is one of the three back ends and its key is
    set: the guards of [dispatch]. *)
Definition hasKeyFor (provider : string) (keys : ApiKeys) : bool :=
  (String.eqb provider "anthropic" && present (anthropic keys))
  || (String.eqb provider "openai" && present (openai keys))
  || (String.eqb provider "groq" && present (groq keys)).

Definition missingKeyMessage : string :=
  "Missing API key. Please add your LLM provider key in Settings.".

(** What the retry loop does that can be observed from outside. *)
Inductive event : Type :=
| EWaitForToken (provider : string) (timeoutMs : Z)
| ECall (attempt : Z)
| ESleep (ms : Z).

(** The number of calls of [executeAgentNodeInternal] in a trace. *)
Fixpoint calls (evs : list event) : nat :=
  match evs with
  | [] => O
  | ECall _ :: rest => S (calls rest)
  | _ :: rest => calls rest
  end.

(** The number of waits on the rate registry in a trace. *)
Fixpoint tokenWaits (evs : list event) : nat :=
  match evs with
  | [] => O
  | EWaitForToken _ _ :: rest => S (tokenWaits rest)
  | _ :: rest => tokenWaits rest
  end.

(** The milliseconds asked of [setTimeout] in a trace, added up. *)
Fixpoint sleepTotal (evs : list event) : Z :=
  match evs with
  | [] => 0
  | ESleep ms :: rest => ms + sleepTotal rest
  | _ :: rest => sleepTotal rest
  end.

(** [rateLimitInfo?.retryAfter || 60] *)
Definition retryAfterSeconds (rateLimitInfo : option RateLimitInfo) : Z :=
  match rateLimitInfo with
  | Some info =>
      match retryAfter info with
      | Some 0 => 60
      | Some r => r
      | None => 60
      end
  | None => 60
  end.

(** [Math.min(retryAfter * 1000, 1000 * Math.pow(2, attempt))] *)
Definition backoffDelay (rateLimitInfo : option RateLimitInfo) (attempt : Z)
  : Z :=
  Z.min (retryAfterSeconds rateLimitInfo * 1000) (1000 * 2 ^ attempt).

Section Controller.

Variable payload : Type.

Variable now : Z.
Variable parseDate : string -> number.
Variable toLocaleString : number -> string.
Variable toLocaleTimeString : number -> string.

(** What the two awaited calls of attempt [i] turn out to be:
    [providerRateLimiter.waitForToken(provider, 30000)] and
    [executeAgentNodeInternal(node, state, apiKeys)]. *)
Variable waitForToken : Z -> string -> Z -> bool.
Variable internal : Z -> res payload.

Variable model : option string.

(** The body of the [try] of one attempt, with the events it causes. *)
Definition attemptOnce (attempt : Z) : list event * res payload :=
  let provider := rateProvider model in
  let hasToken := waitForToken attempt provider 30000 in
  if negb hasToken then
    ([EWaitForToken provider 30000],
     Throw (newError "Rate limit token timeout. Please try again later."))
  else
    ([EWaitForToken provider 30000; ECall attempt], internal attempt).

(** [for (let attempt = 0; attempt <= maxRetries; attempt++) { ... } throw
    lastError].  [fuel] is the number of iterations left,
    [maxRetries + 1 - attempt], so that [fuel = 0] is the exit of the
    loop. *)
Fixpoint attempts (fuel : nat) (attempt maxRetries : Z) (lastError : thrown)
  : list event * res payload :=
  match fuel with
  | O => ([], Throw lastError)
  | S fuel' =>
      let (evs, tried) := attemptOnce attempt in
      match tried with
      | Ok result => (evs, Ok result)
      | Throw error =>
          let errorMessage := messageOf error in
          if isRateLimitMessage errorMessage then
            let rateLimitInfo := extractRateLimitInfo error in
            if attempt =? maxRetries then
              (evs,
               Throw (newError
                        (getRateLimitMessage now parseDate toLocaleString
                           toLocaleTimeString rateLimitInfo)))
            else
              let (later, final) :=
                attempts fuel' (attempt + 1) maxRetries error in
              ((evs ++ ESleep (backoffDelay rateLimitInfo attempt) :: later)%list,
               final)
          else (evs, Throw error)
      end
  end.

(** [export async function executeAgentNode(node, state, apiKeys,
    maxRetries = 3)] *)
Definition executeAgentNode (maxRetries : Z) : list event * res payload :=
  attempts (Z.to_nat (maxRetries + 1)) 0 maxRetries undefined.

(** Attempt [i] got its token and the call failed with [e], which the loop
    classifies as rate limiting. *)
Definition rateLimited (i : Z) (e : thrown) : Prop :=
  waitForToken i (rateProvider model) 30000 = true /\
  internal i = Throw e /\
  isRateLimitMessage (messageOf e) = true.

(** What is expected of consecutive rate-limited attempts that are not the
    last one, the first being attempt [i]: each waits for its token, makes
    the call, and sleeps [min(retryAfterSeconds * 1000, 1000 * 2^i)]. *)
Fixpoint retried (i : Z) (errors : list thrown) : list event :=
  match errors with
  | [] => []
  | e :: rest =>
      EWaitForToken (rateProvider model) 30000
        :: ECall i
        :: ESleep (Z.min (retryAfterSeconds (extractRateLimitInfo e) * 1000)
                         (1000 * 2 ^ i))
        :: retried (i + 1) rest
  end.

End Controller.

End Agent.

(* ------------------------------------------------------------------ *)
(** * Agent-node executor: the assembly of the messages                 *)
(* ------------------------------------------------------------------ *)

Module Assembly.

Import Js TokenOptimizer.
Local Open Scope string_scope.
Local Open Scope Z_scope.

(** An entry of the chat transcript: [{ role, content }]. *)
Record message : Type := mkMessage {
  role : string;
  content : string
}.

(** [{ role: 'user' as const, content }] *)
Definition user (c : string) : message := {| role := "user"; content := c |}.

(** [messages.map(m => m.content).join('\n')] *)
Definition contextOf (messages : list message) : string :=
  join (String LF "") (map content messages).

(** [if (userMessage && userMessage.content) userMessage.content =
    optimizePrompt(userMessage.content, maxTokens)] *)
Definition optimizeIfSet (c : string) (maxTokens : Z) : string :=
  match c with
  | EmptyString => c
  | _ => optimizePrompt c maxTokens
  end.

(** [contextualPrompt] after the first checkpoint. *)
Definition contextualPrompt (instructions : string) : string :=
  if isPromptTooLong instructions 200000
  then optimizePrompt instructions 8000
  else instructions.

(** [data.includeChatHistory && state.chatHistory.length > 0] *)
Definition withHistory (includeChatHistory : bool) (chatHistory : list message)
  : bool :=
  includeChatHistory && (0 <? Z.of_nat (List.length chatHistory)).

(** [fullContext], computed once, before the two later checkpoints. *)
Definition fullContext (instructions : string) (includeChatHistory : bool)
    (chatHistory : list message) : string :=
  contextOf
    (if withHistory includeChatHistory chatHistory
     then chatHistory ++ [user (contextualPrompt instructions)]
     else [user (contextualPrompt instructions)])%list.

(** The messages sent to the provider: the part of
    [executeAgentNodeInternal] from [let contextualPrompt = instructions]
    to the end of the whole-context check.  [instructions] is the text
    after variable substitution; the user message is one object, updated
    in place by both checkpoints. *)
Definition assembleMessages (instructions : string) (includeChatHistory : bool)
    (chatHistory : list message) : list message :=
  let context := fullContext instructions includeChatHistory chatHistory in
  let estimatedTokens := estimateTokenCount context in
  let content1 :=
    if 25000 <? estimatedTokens
    then optimizeIfSet (contextualPrompt instructions) 3000
    else contextualPrompt instructions in
  if isPromptTooLong context 15000 then
    let content2 := optimizeIfSet content1 5000 in
    if withHistory includeChatHistory chatHistory
    then (sliceLast 3 chatHistory ++ [user content2])%list
    else [user content2]
  else
    if withHistory includeChatHistory chatHistory
    then (chatHistory ++ [user content1])%list
    else [user content1].

(** A text of [n] letters. *)
Fixpoint filler (n : nat) : string :=
  match n with
  | O => EmptyString
  | S n' => String "a" (filler n')
  end.

End Assembly.

(* ------------------------------------------------------------------ *)
(** * Tool resolver  (lib/mcp/resolver.ts)                              *)
(* ------------------------------------------------------------------ *)

Module Resolver.

Local Open Scope string_scope.

#[local] Set Warnings "-register-all".

(** The values of type [any] the resolver handles.  An object is the list
    of its own properties in insertion order. *)
Inductive value : Type :=
| VUndefined
| VNull
| VBool (b : bool)
| VNum (n : Z)
| VStr (s : string)
| VArr (items : list value)
| VObj (fields : list (string * value)).

Definition object : Type := list (string * value).

(** [!!v] *)
Definition truthy (v : value) : bool :=
  match v with
  | VUndefined | VNull => false
  | VBool b => b
  | VNum n => negb (n =? 0)%Z
  | VStr s => negb (String.eqb s "")
  | VArr _ | VObj _ => true
  end.

(** [typeof v === 'object'] *)
Definition typeofObject (v : value) : bool :=
  match v with
  | VNull | VArr _ | VObj _ => true
  | _ => false
  end.

(** [typeof v === 'string'] *)
Definition typeofString (v : value) : bool :=
  match v with
  | VStr _ => true
  | _ => false
  end.

(** [o.k] *)
Fixpoint getField (k : string) (o : object) : value :=
  match o with
  | [] => VUndefined
  | (k', v) :: rest => if String.eqb k k' then v else getField k rest
  end.

(** [k in o] for own properties *)
Fixpoint hasField (k : string) (o : object) : bool :=
  match o with
  | [] => false
  | (k', _) :: rest => String.eqb k k' || hasField k rest
  end.

(** [o.k = v]: an existing property keeps its place, a new one goes
    last. *)
Fixpoint setField (k : string) (v : value) (o : object) : object :=
  match o with
  | [] => [(k, v)]
  | (k', v') :: rest =>
      if String.eqb k k' then (k', v) :: rest
      else (k', v') :: setField k v rest
  end.

(** [delete o.k] *)
Fixpoint deleteField (k : string) (o : object) : object :=
  match o with
  | [] => []
  | (k', v') :: rest =>
      if String.eqb k k' then deleteField k rest
      else (k', v') :: deleteField k rest
  end.

Definition indexKey (i : nat) : string := NilZero.string_of_uint (Nat.to_uint i).

Fixpoint indexed (i : nat) (items : list value) : object :=
  match items with
  | [] => []
  | v :: rest => (indexKey i, v) :: indexed (S i) rest
  end.

Fixpoint chars (s : string) : list value :=
  match s with
  | EmptyString => []
  | String c rest => VStr (String c EmptyString) :: chars rest
  end.

(** [{ ...data }]: the own enumerable properties of [data]. *)
Definition spread (data : value) : object :=
  match data with
  | VObj fields => fields
  | VArr items => indexed 0 items
  | VStr s => indexed 0 (chars s)
  | _ => []
  end.

(** [export function migrateMCPData(data: any): any] *)
Definition migrateMCPData (data : value) : value :=
  if negb (truthy data) then data
  else
    let migrated0 := spread data in
    (* if (migrated.mcpTools && Array.isArray(migrated.mcpTools)) *)
    let migrated1 :=
      match getField "mcpTools" migrated0 with
      | VArr tools =>
          let hasServerIds := existsb typeofString tools in
          if hasServerIds
          then deleteField "mcpTools" (setField "mcpServerIds" (VArr tools) migrated0)
          else migrated0
      | _ => migrated0
      end in
    (* if (migrated.tools && Array.isArray(migrated.tools)) *)
    let migrated2 :=
      match getField "tools" migrated1 with
      | VArr tools =>
          let isServerIds := forallb typeofString tools in
          if isServerIds
          then deleteField "tools" (setField "mcpServerIds" (VArr tools) migrated1)
          else migrated1
      | _ => migrated1
      end in
    (* if (migrated.mcpServerIds && !Array.isArray(migrated.mcpServerIds)) *)
    let migrated3 :=
      match getField "mcpServerIds" migrated2 with
      | VArr _ => migrated2
      | ids =>
          if truthy ids then setField "mcpServerIds" (VArr [ids]) migrated2
          else migrated2
      end in
    VObj migrated3.

(** The three rewrites of [migrateMCPData], one after the other:
    [migrateMCPData (VObj o)] is [VObj (ensureArray (rewriteTools
    (rewriteMcpTools o)))]. *)
Definition rewriteMcpTools (o : object) : object :=
  match getField "mcpTools" o with
  | VArr tools =>
      if existsb typeofString tools
      then deleteField "mcpTools" (setField "mcpServerIds" (VArr tools) o)
      else o
  | _ => o
  end.

Definition rewriteTools (o : object) : object :=
  match getField "tools" o with
  | VArr tools =>
      if forallb typeofString tools
      then deleteField "tools" (setField "mcpServerIds" (VArr tools) o)
      else o
  | _ => o
  end.

Definition ensureArray (o : object) : object :=
  match getField "mcpServerIds" o with
  | VArr _ => o
  | ids => if truthy ids then setField "mcpServerIds" (VArr [ids]) o else o
  end.

(** The fields as a rewrite that has nothing to do finds them: no id
    string under [mcpTools]; not only id strings under [tools]; an array or
    a falsy value under [mcpServerIds]. *)
Definition noIdsUnderMcpTools (v : value) : Prop :=
  match v with
  | VArr tools => existsb typeofString tools = false
  | _ => True
  end.

Definition notAllIds (v : value) : Prop :=
  match v with
  | VArr tools => forallb typeofString tools = false
  | _ => True
  end.

Definition arrayOrFalsy (v : value) : Prop :=
  match v with
  | VArr _ => True
  | _ => truthy v = false
  end.

(** The two other rewrites of [migrateMCPData] have nothing to do: there is
    no [mcpTools] array with an id string in it, and [mcpServerIds] is an
    array or falsy. *)
Definition noOtherLegacy (o : object) : bool :=
  match getField "mcpTools" o with
  | VArr tools => negb (existsb typeofString tools)
  | _ => true
  end
  && match getField "mcpServerIds" o with
     | VArr _ => true
     | ids => negb (truthy ids)
     end.

(** A statement sent to the store: its text and its one parameter. *)
Definition query : Type := (string * list value)%type.

(** The text of the statement (the table name is quoted in the source). *)
Definition selectServers : string := "SELECT * FROM mcpServer WHERE id = ANY($1)".

(** The object an executor expects, built from a row of the store. *)
Definition toExecutorFormat (server : object) : value :=
  VObj [ ("name", getField "name" server);
         ("url", getField "url" server);
         ("description", getField "description" server);
         ("authType", getField "authType" server);
         ("accessToken", getField "accessToken" server);
         ("availableTools",
           let tools := getField "tools" server in
           if truthy tools then tools else VArr []);
         ("headers", getField "headers" server) ].

Section Store.

(** [db.query(text, [serverIds])], giving [result.rows] or throwing. *)
Variable db_query : string -> list value -> res (list object).

(** [export async function resolveMCPServers(serverIds)]: the value the
    promise settles with, and the statements sent to the store.  [None] is
    a missing ([null] or [undefined]) argument. *)
Definition resolveMCPServers (serverIds : option (list value))
  : res (list value) * list query :=
  match serverIds with
  | None => (Ok [], [])
  | Some [] => (Ok [], [])
  | Some (first :: rest) =>
      if typeofObject first then (Ok (first :: rest), [])
      else
        (tryCatch
           match db_query selectServers (first :: rest) with
           | Ok rows => Ok (map toExecutorFormat rows)
           | Throw e => Throw e
           end
           (fun _ => Ok []),
         [(selectServers, first :: rest)])
  end.

End Store.

Section MoreOfTheStore.

Variable db_query : string -> list value -> res (list object).

(** The text of the statement of [resolveMCPServer] (names unquoted). *)
Definition selectServer : string := "SELECT * FROM mcpServer WHERE id = $1".

(** The text of the statement of [getAllMCPServers]. *)
Definition selectEnabled : string :=
  "SELECT * FROM mcpServer WHERE userId = $1 AND enabled = true".

(** [export async function resolveMCPServer(serverId)]: [None] is
    [null]. *)
Definition resolveMCPServer (serverId : string)
  : res (option value) * list query :=
  match serverId with
  | EmptyString => (Ok None, [])
  | _ =>
      (tryCatch
         match db_query selectServer [VStr serverId] with
         | Ok [] => Ok None
         | Ok (server :: _) => Ok (Some (toExecutorFormat server))
         | Throw e => Throw e
         end
         (fun _ => Ok None),
       [(selectServer, [VStr serverId])])
  end.

(** [export async function getAllMCPServers(userId)] *)
Definition getAllMCPServers (userId : string) : res (list value) * list query :=
  (tryCatch
     match db_query selectEnabled [VStr userId] with
     | Ok rows => Ok (map toExecutorFormat rows)
     | Throw e => Throw e
     end
     (fun _ => Ok []),
   [(selectEnabled, [VStr userId])]).

(** The tools of a node as [executeAgentNodeInternal] finds them:
    [let mcpTools = migratedData.mcpTools || []; if
    (migratedData.mcpServerIds && migratedData.mcpServerIds.length > 0)
    mcpTools = await resolveMCPServers(migratedData.mcpServerIds)], for a
    node whose [data] is an object. *)
Definition resolveNodeTools (data : object) : res value * list query :=
  match migrateMCPData (VObj data) with
  | VObj migrated =>
      let inline :=
        let mcpTools := getField "mcpTools" migrated in
        if truthy mcpTools then mcpTools else VArr [] in
      match getField "mcpServerIds" migrated with
      | VArr (first :: rest) =>
          match resolveMCPServers db_query (Some (first :: rest)) with
          | (Ok tools, sent) => (Ok (VArr tools), sent)
          | (Throw e, sent) => (Throw e, sent)
          end
      | _ => (Ok inline, [])
      end
  | _ => (Ok (VArr []), [])
  end.

End MoreOfTheStore.

(** An id of the batch: the parameter holds the string [s]. *)
Definition isId (s : string) (v : value) : bool :=
  match v with
  | VStr t => String.eqb s t
  | _ => false
  end.

Definition rowSelected (ids : list value) (row : object) : bool :=
  match getField "id" row with
  | VStr s => existsb (isId s) ids
  | _ => false
  end.

(** Modelled from the spec: the external store behind [db.query] (the
    database client is not among the sources).  It reads tool-server
    configurations by id batch: the answer to [selectServers] is the rows
    of its table whose [id] is one of the given ids, in table order. *)
Definition tableStore (table : list object) (text : string) (ids : list value)
  : res (list object) :=
  Ok (filter (rowSelected ids) table).

(** Modelled from the spec: the external store behind [db.query], reading
    each of the three statements of the resolver as its text says:
    [selectEnabled] gives the rows of the user that are enabled, the two
    statements by id give the rows whose [id] is among the ids. *)
Definition sqlStore (table : list object) (text : string) (params : list value)
  : res (list object) :=
  if String.eqb text selectEnabled then
    Ok (filter (fun row =>
                  match params, getField "userId" row, getField "enabled" row with
                  | [VStr userId], VStr owner, VBool true => String.eqb owner userId
                  | _, _, _ => false
                  end) table)
  else tableStore table text params.

End Resolver.

(* ------------------------------------------------------------------ *)
(** * Firecrawl tool client  (class FirecrawlMCPClient)                 *)
(* ------------------------------------------------------------------ *)

Module Firecrawl.

Import Resolver.
Local Open Scope string_scope.
Local Open Scope Z_scope.

(** What [fetch] is called with: the URL, the [Authorization] header and
    the object given to [JSON.stringify] for the body. *)
Record request : Type := mkRequest {
  endpoint : string;
  authorization : string;
  body : object
}.

(** What the client reads of a response: [ok], [status], and the outcome of
    [await response.json()]. *)
Record response : Type := mkResponse {
  ok : bool;
  status : Z;
  json : res value
}.


(** [a || b] *)
Definition orElse (a b : value) : value := if truthy a then a else b.

(** [v !== false] *)
Definition notFalse (v : value) : bool :=
  match v with
  | VBool false => false
  | _ => true
  end.

Section Client.

Variable apiKey : string.

(** [fetch(url, init)]: the response, or a thrown network error. *)
Variable fetch : request -> res response.

(** The common end of [scrapeUrl] and [crawlWebsite]: [if (!response.ok)
    throw new Error(`Firecrawl API error: ${response.status}`); return
    await response.json()]. *)
Definition send (r : request) : res value * list request :=
  (match fetch r with
   | Throw e => Throw e
   | Ok response =>
       if negb (ok response)
       then Throw (newError ("Firecrawl API error: "
                               ++ RateLimiter.numberToString (Some (status response))))
       else json response
   end,
   [r]).

(** [private async scrapeUrl(params)] *)
Definition scrapeUrl (params : object) : res value * list request :=
  send {| endpoint := "https://api.firecrawl.dev/v0/scrape";
          authorization := "Bearer " ++ apiKey;
          body := [ ("url", getField "url" params);
                    ("formats", orElse (getField "formats" params)
                                  (VArr [VStr "markdown"]));
                    ("onlyMainContent",
                      VBool (notFalse (getField "onlyMainContent" params))) ] |}.

(** [private async crawlWebsite(params)] *)
Definition crawlWebsite (params : object) : res value * list request :=
  send {| endpoint := "https://api.firecrawl.dev/v0/crawl";
          authorization := "Bearer " ++ apiKey;
          body := [ ("url", getField "url" params);
                    ("maxDepth", orElse (getField "maxDepth" params) (VNum 2));
                    ("limit", orElse (getField "limit" params) (VNum 10)) ] |}.

(** [async executeTool(toolName, parameters)], for parameters that are an
    object. *)
Definition executeTool (toolName : string) (parameters : object)
  : res value * list request :=
  let (outcome, sent) :=
    if String.eqb toolName "scrape_url" then scrapeUrl parameters
    else if String.eqb toolName "crawl_website" then crawlWebsite parameters
    else (Throw (newError ("Unknown tool: " ++ toolName)), []) in
  (tryCatch outcome
     (fun error =>
        Throw (newError ("Tool execution failed: " ++ Agent.messageOf error))),
   sent).

End Client.

End Firecrawl.

(* ------------------------------------------------------------------ *)
(** * Approval records  (lib/database/approvals.ts)                     *)
(* ------------------------------------------------------------------ *)

Module Approvals.

Local Open Scope string_scope.

(** ['pending' | 'approved' | 'rejected'] *)
Inductive status : Type := pending | approved | rejected.

(** The type of the [status] argument of [updateApprovalStatus]:
    ['approved' | 'rejected']. *)
Inductive decision : Type := approve | reject.

Definition statusOf (d : decision) : status :=
  match d with
  | approve => approved
  | reject => rejected
  end.

(** [export interface Approval] *)
Record Approval : Type := mkApproval {
  id : string;
  approvalId : string;
  workflowId : string;
  executionId : option string;
  nodeId : option string;
  message : string;
  approvalStatus : status;
  userId : option string;
  createdBy : option string;
  respondedBy : option string;
  createdAt : string;
  respondedAt : option string
}.

(** The rows of the [approvals] table.  Each function below is the SQL
    statement it sends, read on this list of rows. *)
Definition table : Type := list Approval.

Definition optEq (a : option string) (b : string) : bool :=
  match a with
  | Some x => String.eqb x b
  | None => false
  end.

(** [createApproval]: [INSERT ... RETURNING *].  [newId] is the id the
    store gives the row, [now] the time stamp. *)
Definition createApproval (newId now : string) (a : Approval) (t : table)
  : table * Approval :=
  let row := {| id := newId; approvalId := approvalId a;
                workflowId := workflowId a; executionId := executionId a;
                nodeId := nodeId a; message := message a;
                approvalStatus := approvalStatus a; userId := userId a;
                createdBy := createdBy a; respondedBy := None;
                createdAt := now; respondedAt := None |} in
  ((t ++ [row])%list, row).

(** [getApprovalById]: [result.rows[0] || null] *)
Definition getApprovalById (approvalId0 : string) (t : table) : option Approval :=
  hd_error (filter (fun a => String.eqb (approvalId a) approvalId0) t).

(** The [SET] clause of [updateApprovalStatus] on one row. *)
Definition setStatus (s : decision) (by_ : option string) (now : string)
    (a : Approval) : Approval :=
  {| id := id a; approvalId := approvalId a; workflowId := workflowId a;
     executionId := executionId a; nodeId := nodeId a; message := message a;
     approvalStatus := statusOf s; userId := userId a;
     createdBy := createdBy a; respondedBy := by_;
     createdAt := createdAt a; respondedAt := Some now |}.

(** [updateApprovalStatus]: [UPDATE approvals SET status = $1, respondedBy =
    $2, respondedAt = $3 WHERE approvalId = $4 RETURNING *]. *)
Definition updateApprovalStatus (approvalId0 : string) (s : decision)
    (by_ : option string) (now : string) (t : table)
  : table * option Approval :=
  let t' := map (fun a => if String.eqb (approvalId a) approvalId0
                          then setStatus s by_ now a else a) t in
  (t', hd_error (filter (fun a => String.eqb (approvalId a) approvalId0) t')).

(** [getPendingApprovals] (the order by [createdAt] is left to the store) *)
Definition getPendingApprovals (workflowId0 : string) (t : table) : list Approval :=
  filter (fun a => String.eqb (workflowId a) workflowId0
                   && match approvalStatus a with pending => true | _ => false end) t.

(** [getApprovalsByExecution] *)
Definition getApprovalsByExecution (executionId0 : string) (t : table)
  : list Approval :=
  filter (fun a => optEq (executionId a) executionId0) t.

(** The [status] field of what [watchApprovalStatus] returns. *)
Inductive watched : Type :=
| not_found
| found (s : status) (a : Approval).

(** [watchApprovalStatus] *)
Definition watchApprovalStatus (approvalId0 : string) (t : table) : watched :=
  match getApprovalById approvalId0 t with
  | None => not_found
  | Some a => found (approvalStatus a) a
  end.

(** The operations the module exports, as calls on the store. *)
Inductive op : Type :=
| CreateApproval (newId now : string) (a : Approval)
| GetApprovalById (approvalId0 : string)
| UpdateApprovalStatus (approvalId0 : string) (s : decision)
    (by_ : option string) (now : string)
| GetPendingApprovals (workflowId0 : string)
| GetApprovalsByExecution (executionId0 : string)
| WatchApprovalStatus (approvalId0 : string).

(** The table after a call. *)
Definition exec (o : op) (t : table) : table :=
  match o with
  | CreateApproval newId now a => fst (createApproval newId now a t)
  | UpdateApprovalStatus i s by_ now => fst (updateApprovalStatus i s by_ now t)
  | GetApprovalById _ | GetPendingApprovals _ | GetApprovalsByExecution _
  | WatchApprovalStatus _ => t
  end.

Definition isTerminal (s : status) : bool :=
  match s with
  | pending => false
  | approved | rejected => true
  end.

End Approvals.

(* ------------------------------------------------------------------ *)
(** * Concrete scenarios                                                *)
(* ------------------------------------------------------------------ *)

Module Scenario.

Import RateLimiter Agent.
Local Open Scope string_scope.
Local Open Scope Z_scope.

(** Response headers that carry only [retry-after]. *)
Definition retryAfterHeader (seconds : string) (name : string) : option string :=
  if String.eqb name "retry-after" then Some seconds else None.

(** A provider rejection with status 429 and the given [retry-after]. *)
Definition throttled (seconds : string) : thrown :=
  ErrorObj "429 Too Many Requests" (Some (retryAfterHeader seconds)).

(** A dispatcher that is throttled twice and then answers. *)
Definition failsTwice (attempt : Z) : res string :=
  if attempt <? 2 then Throw (throttled "1") else Ok "third".

(** A dispatcher that is throttled at every attempt. *)
Definition alwaysThrottled (attempt : Z) : res string :=
  Throw (throttled "5").

(** A host without a parsable reset time. *)
Definition noDate (s : string) : number := None.
Definition invalidDate (t : number) : string := "Invalid Date".

Definition tokenGranted (attempt : Z) (provider : string) (timeoutMs : Z) : bool :=
  true.

Definition tokenTimesOut (attempt : Z) (provider : string) (timeoutMs : Z) : bool :=
  false.

Definition noKeys : ApiKeys :=
  {| anthropic := None; groq := None; openai := None; firecrawl := None |}.

Definition groqKey : ApiKeys :=
  {| anthropic := None; groq := Some "gsk-test"; openai := None;
     firecrawl := None |}.

(** The executor of a [groq] node whose provider answers every call with
    status 429 and [retry-after: 1]. *)
Definition throttledProvider (attempt : Z) : res string :=
  executeAgentNodeInternal string 0 noDate numberToString invalidDate
    (Ok tt) None (Ok tt) (fun _ _ _ => Throw (throttled "1"))
    (Some "groq/llama-70b") (Some groqKey).

(** The executor of a node whose provider has no key. *)
Definition unconfigured (model : option string) (attempt : Z) : res string :=
  executeAgentNodeInternal string 0 noDate numberToString invalidDate
    (Ok tt) None (Ok tt) (fun _ _ _ => Ok "unused") model (Some noKeys).

(** A descriptor with the given remaining input tokens and reset time;
    the other fields are the defaults of the extractor. *)
Definition descriptor (remaining : number) (reset : string) : RateLimitInfo :=
  {| retryAfter := Some 60; resetTime := reset;
     remainingTokens := remaining; limitTokens := Some 30000;
     outputTokensRemaining := Some 0; outputTokensLimit := Some 8000;
     requestsRemaining := Some 0; requestsLimit := Some 50;
     totalTokensRemaining := Some 0; totalTokensLimit := Some 38000 |}.

(** A host whose reset times are written as milliseconds. *)
Definition millisDate (s : string) : number := parseInt s.

(** A row of the store for the tool server [a]. *)
Definition serverA : Resolver.object :=
  [ ("id", Resolver.VStr "a"); ("userId", Resolver.VStr "u1");
    ("name", Resolver.VStr "search");
    ("url", Resolver.VStr "https://mcp.example/search");
    ("enabled", Resolver.VBool true) ].

(** A legacy inline tool configuration. *)
Definition inlineTool : Resolver.value :=
  Resolver.VObj [ ("name", Resolver.VStr "search");
                  ("url", Resolver.VStr "https://mcp.example/search") ].

(** A legacy node configuration that lists its tools by id. *)
Definition idsConfig : Resolver.object :=
  [ ("instructions", Resolver.VStr "Search the web");
    ("tools", Resolver.VArr [Resolver.VStr "id1"; Resolver.VStr "id2"]) ].

(** A legacy node configuration with inline tool objects. *)
Definition inlineConfig : Resolver.object :=
  [ ("instructions", Resolver.VStr "Search the web");
    ("tools", Resolver.VArr [inlineTool]) ].

(** A node configuration with an id list under [mcpTools] and inline
    objects under [tools]. *)
Definition mixedConfig : Resolver.object :=
  [ ("mcpTools", Resolver.VArr [Resolver.VStr "id1"]);
    ("tools", Resolver.VArr [inlineTool]) ].

(** An approval record waiting for its answer. *)
Definition pendingApproval : Approvals.Approval :=
  {| Approvals.id := "1"; Approvals.approvalId := "ap1";
     Approvals.workflowId := "wf1"; Approvals.executionId := Some "ex1";
     Approvals.nodeId := Some "n1"; Approvals.message := "Deploy?";
     Approvals.approvalStatus := Approvals.pending;
     Approvals.userId := None; Approvals.createdBy := None;
     Approvals.respondedBy := None; Approvals.createdAt := "t0";
     Approvals.respondedAt := None |}.

(** A row of the store for a tool server that its owner has disabled. *)
Definition serverOff : Resolver.object :=
  [ ("id", Resolver.VStr "off"); ("userId", Resolver.VStr "u1");
    ("name", Resolver.VStr "crawler");
    ("url", Resolver.VStr "https://mcp.example/crawl");
    ("enabled", Resolver.VBool false) ].

(** A prompt of two sentences, the first one long word. *)
Definition longFirstSentence : string :=
  "aaaaaaaaaaaaaaaaaaaa. x x x x x x x x x x".

End Scenario.

(* ================================================================== *)
(** * Properties                                                        *)
(* ================================================================== *)

(* ------------------------------------------------------------------ *)
(** ** Token bucket                                                     *)
(* ------------------------------------------------------------------ *)

Section TokenBucketFacts.

Import TokenBucket.
Local Open Scope Q_scope.




(** *** The bounds are an invariant *)







Section Monotone.

Variable clock : nat -> Z.
Hypothesis clock_mono : forall i, (clock i <= clock (S i))%Z.
Variable cap : Q.










End Monotone.



(** The lower bound rests on the clock: were a reading to lie 10 s before
    the previous one, the refill of a full bucket of the [anthropic]
    limiter would leave it at -25 tokens.  The upper bound does not. *)
Remark refill_on_a_clock_stepping_back :
  let clock := fun i => match i with O => 10000%Z | _ => 0%Z end in
  tokens (bucket (run clock [GetTokenCount] (create clock 3 5))) == -25.
Proof. reflexivity. Qed.

Remark refill_never_exceeds_capacity now b :
  tokens (refillTokens now b) <= maxTokens b.
Proof. apply Q.le_min_l. Qed.

End TokenBucketFacts.

(* ------------------------------------------------------------------ *)
(** ** Retry loop                                                       *)
(* ------------------------------------------------------------------ *)

Section ControllerFacts.

Import Js RateLimiter Agent.
Local Open Scope Z_scope.

Variable payload : Type.
Variable now : Z.
Variable parseDate : string -> number.
Variable toLocaleString : number -> string.
Variable toLocaleTimeString : number -> string.
Variable waitForToken : Z -> string -> Z -> bool.
Variable internal : Z -> res payload.
Variable model : option string.

Local Abbreviation attempts :=
  (attempts payload now parseDate toLocaleString toLocaleTimeString
     waitForToken internal model).
Local Abbreviation attemptOnce :=
  (attemptOnce payload waitForToken internal model).
Local Abbreviation rateLimited :=
  (rateLimited payload waitForToken internal model).
Local Abbreviation retried := (retried model).
Local Abbreviation executeAgentNode :=
  (executeAgentNode payload now parseDate toLocaleString toLocaleTimeString
     waitForToken internal model).
Local Abbreviation rateLimitError e :=
  (newError (getRateLimitMessage now parseDate toLocaleString
               toLocaleTimeString (extractRateLimitInfo e))).

Lemma last_shift {A : Type} (xs : list A) (x d : A) :
  List.last (x :: xs) d = List.last xs x.
Proof.
  revert x d. induction xs as [|y ys IH]; intros x d; [reflexivity|].
  change (List.last (x :: y :: ys) d) with (List.last (y :: ys) d).
  rewrite !IH. reflexivity.
Qed.

Lemma attemptOnce_rateLimited i e :
  rateLimited i e ->
  attemptOnce i = ([EWaitForToken (rateProvider model) 30000; ECall i], Throw e).
Proof.
  intros (Htok & Hint & _). unfold Agent.attemptOnce.
  rewrite Htok, Hint. reflexivity.
Qed.

(** One rate-limited attempt that is not the last: sleep, then go on. *)
Lemma attempts_retry fuel i maxRetries last e :
  rateLimited i e -> i <> maxRetries ->
  attempts (S fuel) i maxRetries last =
    ((retried i [e] ++ fst (attempts fuel (i + 1) maxRetries e))%list,
     snd (attempts fuel (i + 1) maxRetries e)).
Proof.
  intros Hrl Hne. cbn [Agent.attempts].
  rewrite (attemptOnce_rateLimited i e Hrl).
  destruct Hrl as (_ & _ & Hmsg). rewrite Hmsg.
  apply Z.eqb_neq in Hne. rewrite Hne.
  destruct (attempts fuel (i + 1) maxRetries e) as [later final].
  reflexivity.
Qed.

(** A run of rate-limited attempts, none of them the last one. *)
Lemma attempts_retried errors : forall fuel i maxRetries last,
  i + Z.of_nat (length errors) <= maxRetries ->
  (forall j, (j < length errors)%nat ->
             rateLimited (i + Z.of_nat j) (nth j errors undefined)) ->
  attempts (length errors + fuel) i maxRetries last =
    ((retried i errors
        ++ fst (attempts fuel (i + Z.of_nat (length errors)) maxRetries
                  (List.last errors last)))%list,
     snd (attempts fuel (i + Z.of_nat (length errors)) maxRetries
            (List.last errors last))).
Proof.
  induction errors as [|e errors IH]; intros fuel i maxRetries last Hle Hall.
  - cbn. rewrite Z.add_0_r.
    destruct (attempts fuel i maxRetries last); reflexivity.
  - cbn [length] in Hle.
    change (length (e :: errors) + fuel)%nat with (S (length errors + fuel)).
    rewrite (attempts_retry _ _ _ _ e).
    + rewrite (IH fuel (i + 1) maxRetries e).
      * rewrite last_shift.
        replace (i + 1 + Z.of_nat (length errors))
          with (i + Z.of_nat (length (e :: errors))) by (cbn [length]; lia).
        cbn. reflexivity.
      * lia.
      * intros j Hj. specialize (Hall (S j)). cbn [nth length] in Hall.
        replace (i + 1 + Z.of_nat j) with (i + Z.of_nat (S j)) by lia.
        apply Hall. lia.
    + specialize (Hall 0%nat). cbn in Hall. rewrite Z.add_0_r in Hall.
      apply Hall. lia.
    + lia.
Qed.

(** An attempt that ends the loop: what [attempts] does with it. *)
Lemma attempts_success fuel i maxRetries last result :
  waitForToken i (rateProvider model) 30000 = true ->
  internal i = Ok result ->
  attempts (S fuel) i maxRetries last =
    ([EWaitForToken (rateProvider model) 30000; ECall i], Ok result).
Proof.
  intros Htok Hint. cbn [Agent.attempts]. unfold Agent.attemptOnce.
  rewrite Htok, Hint. reflexivity.
Qed.

Lemma attempts_exhausted fuel i last e :
  rateLimited i e ->
  attempts (S fuel) i i last =
    ([EWaitForToken (rateProvider model) 30000; ECall i],
     Throw (rateLimitError e)).
Proof.
  intros Hrl. cbn [Agent.attempts].
  rewrite (attemptOnce_rateLimited i e Hrl).
  destruct Hrl as (_ & _ & Hmsg). rewrite Hmsg, Z.eqb_refl. reflexivity.
Qed.

Lemma attempts_other fuel i maxRetries last e :
  snd (attemptOnce i) = Throw e ->
  isRateLimitMessage (messageOf e) = false ->
  attempts (S fuel) i maxRetries last = (fst (attemptOnce i), Throw e).
Proof.
  intros Hthrow Hmsg. cbn [Agent.attempts].
  destruct (attemptOnce i) as [evs tried]. cbn [fst snd] in *. subst tried.
  rewrite Hmsg. reflexivity.
Qed.

Lemma executeAgentNode_split maxRetries (errors : list thrown) :
  Z.of_nat (length errors) <= maxRetries ->
  exists fuel,
    Z.to_nat (maxRetries + 1) = (length errors + S fuel)%nat.
Proof.
  intros Hle. exists (Z.to_nat (maxRetries - Z.of_nat (length errors))). lia.
Qed.

(** How [rateLimitInfo?.retryAfter || 60] reads the descriptor: its
    [retryAfter] when that is a number other than zero, and 60 when there
    is no descriptor or the value is [NaN] or zero. *)
Lemma retryAfterSeconds_cases (info : RateLimitInfo) :
  retryAfterSeconds None = 60 /\
  (forall r, retryAfter info = Some r -> r <> 0 ->
             retryAfterSeconds (Some info) = r) /\
  (retryAfter info = Some 0 \/ retryAfter info = None ->
   retryAfterSeconds (Some info) = 60).
Proof.
  unfold retryAfterSeconds. repeat split.
  - intros r -> Hr. destruct r; [contradiction| |]; reflexivity.
  - intros [-> | ->]; reflexivity.
Qed.

(** What [executeAgentNodeInternal] throws is always a fresh [Error]
    without response headers: the loop extracts no descriptor from it. *)
Remark internal_error_has_no_headers prepare mockResponse assemble
    callProvider apiKeys e :
  executeAgentNodeInternal payload now parseDate toLocaleString
    toLocaleTimeString prepare mockResponse assemble callProvider model
    apiKeys = Throw e ->
  extractRateLimitInfo e = None.
Proof.
  unfold executeAgentNodeInternal, tryCatch.
  destruct (internalBody payload prepare mockResponse assemble callProvider
              model apiKeys) as [r|e0]; [discriminate|].
  unfold userFacing.
  destruct (includes "API key" (messageOf e0) || includes "api_key" (messageOf e0));
    [intros [= <-]; reflexivity|].
  destruct (isRateLimitMessage (messageOf e0)); [intros [= <-]; reflexivity|].
  destruct (includes "No API key available" (messageOf e0));
    intros [= <-]; reflexivity.
Qed.

(** C1. With the default budget of 3 retries (4 attempts), let the first
    [k <= 3] attempts be failures that the loop classifies as rate
    limiting.  After each of them, attempt [i], the controller sleeps
    exactly [min(retryAfterSeconds * 1000, 1000 * 2^i)] ms, where
    [retryAfterSeconds] is the [retryAfter] of the descriptor extracted
    from the error, or 60 by default, and then goes on with attempt
    [i + 1], whatever that attempt does.  If attempt [k] succeeds, its
    result is returned at once.  If all four attempts are rate limited,
    the loop stops after the fourth call, without sleeping, and throws the
    formatted rate-limit message of the descriptor of the last error. *)
Theorem retry_with_backoff (errors : list thrown) :
  Z.of_nat (length errors) <= 3 ->
  (forall j, (j < length errors)%nat ->
             rateLimited (Z.of_nat j) (nth j errors undefined)) ->
  (executeAgentNode 3 =
     ((retried 0 errors
         ++ fst (attempts (S (3 - length errors))
                   (Z.of_nat (length errors)) 3
                   (List.last errors undefined)))%list,
      snd (attempts (S (3 - length errors))
             (Z.of_nat (length errors)) 3 (List.last errors undefined))))
  /\
  (forall result,
      waitForToken (Z.of_nat (length errors)) (rateProvider model) 30000 = true ->
      internal (Z.of_nat (length errors)) = Ok result ->
      executeAgentNode 3 =
        ((retried 0 errors
            ++ [EWaitForToken (rateProvider model) 30000;
                ECall (Z.of_nat (length errors))])%list,
         Ok result))
  /\
  (forall e,
      Z.of_nat (length errors) = 3 ->
      rateLimited 3 e ->
      executeAgentNode 3 =
        ((retried 0 errors
            ++ [EWaitForToken (rateProvider model) 30000; ECall 3])%list,
         Throw (rateLimitError e))).
Proof.
  intros Hle Hall.
  assert (Hfuel : Z.to_nat (3 + 1) = (length errors + S (3 - length errors))%nat)
    by lia.
  assert (Hrun : forall j, (j < length errors)%nat ->
             rateLimited (0 + Z.of_nat j) (nth j errors undefined))
    by (intros j Hj; apply Hall; exact Hj).
  unfold Agent.executeAgentNode. rewrite Hfuel.
  rewrite (attempts_retried errors (S (3 - length errors)) 0 3 undefined Hle Hrun).
  rewrite Z.add_0_l. split; [reflexivity|]. split.
  - intros result Htok Hint.
    rewrite (attempts_success _ _ 3 _ result Htok Hint). reflexivity.
  - intros e Hk Hrl. rewrite Hk.
    rewrite (attempts_exhausted _ 3 _ e Hrl). reflexivity.
Qed.

(** The guards of [dispatch] all fail: the missing-credentials error. *)
Lemma dispatch_no_key callProvider provider modelName keys :
  hasKeyFor provider keys = false ->
  dispatch payload callProvider provider modelName keys =
    Throw (newError ("No API key available for provider: " ++ provider)).
Proof.
  unfold hasKeyFor, dispatch. intros H.
  apply orb_false_elim in H. destruct H as [H Hg].
  apply orb_false_elim in H. destruct H as [Ha Ho].
  rewrite Ha, Ho, Hg. reflexivity.
Qed.

Lemma userFacing_no_key provider :
  userFacing payload now parseDate toLocaleString toLocaleTimeString
    (newError ("No API key available for provider: " ++ provider)) =
  Throw (newError missingKeyMessage).
Proof. reflexivity. Qed.

Lemma internal_no_key callProvider keys :
  hasKeyFor (fst (parseModel model)) keys = false ->
  executeAgentNodeInternal payload now parseDate toLocaleString
    toLocaleTimeString (Ok tt) None (Ok tt) callProvider model (Some keys) =
  Throw (newError missingKeyMessage).
Proof.
  intros H. unfold executeAgentNodeInternal, internalBody.
  destruct (parseModel model) as [provider modelName]. cbn [fst] in H.
  rewrite (dispatch_no_key callProvider provider modelName keys H).
  cbn [tryCatch]. apply userFacing_no_key.
Qed.

(** C4. Whatever the budget, let the first [k <= maxRetries] attempts be
    rate-limited failures.  If attempt [k] then fails with an error that is
    not classified as rate limiting (the token wait timing out, or the call
    throwing anything else), the loop throws that very error right after
    attempt [k]: no sleep and no further attempt follow.  In particular,
    when the provider selected by the model has no configured key, the
    call throws the missing-key error, which is not classified as rate
    limiting, and it is thrown after that one call. *)
Theorem other_failure_not_retried (maxRetries : Z) (errors : list thrown) :
  Z.of_nat (length errors) <= maxRetries ->
  (forall j, (j < length errors)%nat ->
             rateLimited (Z.of_nat j) (nth j errors undefined)) ->
  (forall e,
      snd (attemptOnce (Z.of_nat (length errors))) = Throw e ->
      isRateLimitMessage (messageOf e) = false ->
      executeAgentNode maxRetries =
        ((retried 0 errors ++ fst (attemptOnce (Z.of_nat (length errors))))%list,
         Throw e))
  /\
  (forall callProvider keys,
      waitForToken (Z.of_nat (length errors)) (rateProvider model) 30000 = true ->
      internal (Z.of_nat (length errors)) =
        executeAgentNodeInternal payload now parseDate toLocaleString
          toLocaleTimeString (Ok tt) None (Ok tt) callProvider model
          (Some keys) ->
      hasKeyFor (fst (parseModel model)) keys = false ->
      executeAgentNode maxRetries =
        ((retried 0 errors
            ++ [EWaitForToken (rateProvider model) 30000;
                ECall (Z.of_nat (length errors))])%list,
         Throw (newError missingKeyMessage))).
Proof.
  intros Hle Hall.
  destruct (executeAgentNode_split maxRetries errors Hle) as [fuel Hfuel].
  assert (Hrun : forall j, (j < length errors)%nat ->
             rateLimited (0 + Z.of_nat j) (nth j errors undefined))
    by (intros j Hj; apply Hall; exact Hj).
  assert (Hother : forall e,
      snd (attemptOnce (Z.of_nat (length errors))) = Throw e ->
      isRateLimitMessage (messageOf e) = false ->
      executeAgentNode maxRetries =
        ((retried 0 errors ++ fst (attemptOnce (Z.of_nat (length errors))))%list,
         Throw e)).
  { intros e Hthrow Hmsg. unfold Agent.executeAgentNode. rewrite Hfuel.
    rewrite (attempts_retried errors (S fuel) 0 maxRetries undefined Hle Hrun).
    rewrite Z.add_0_l.
    rewrite (attempts_other fuel _ maxRetries _ e Hthrow Hmsg). reflexivity. }
  split; [exact Hother|].
  intros callProvider keys Htok Hint Hkey.
  rewrite (internal_no_key callProvider keys Hkey) in Hint.
  assert (Honce : attemptOnce (Z.of_nat (length errors)) =
                  ([EWaitForToken (rateProvider model) 30000;
                    ECall (Z.of_nat (length errors))],
                   Throw (newError missingKeyMessage))).
  { unfold Agent.attemptOnce. rewrite Htok, Hint. reflexivity. }
  rewrite (Hother (newError missingKeyMessage)).
  - rewrite Honce. reflexivity.
  - rewrite Honce. reflexivity.
  - reflexivity.
Qed.

End ControllerFacts.

Section ControllerWitnesses.

Import RateLimiter Agent Scenario.
Local Open Scope string_scope.
Local Open Scope Z_scope.

(** Two scenarios with the default budget: a [groq] model throttled twice
    with [retry-after: 1] that then answers, and one throttled four times
    with [retry-after: 5]. *)
Lemma retry_with_backoff_witness :
  executeAgentNode string 0 noDate numberToString invalidDate tokenGranted
    failsTwice (Some "groq/llama-70b") 3 =
    ([EWaitForToken "groq" 30000; ECall 0; ESleep 1000;
      EWaitForToken "groq" 30000; ECall 1; ESleep 1000;
      EWaitForToken "groq" 30000; ECall 2],
     Ok "third")
  /\
  executeAgentNode string 0 noDate numberToString invalidDate tokenGranted
    alwaysThrottled (Some "groq/llama-70b") 3 =
    ([EWaitForToken "groq" 30000; ECall 0; ESleep 1000;
      EWaitForToken "groq" 30000; ECall 1; ESleep 2000;
      EWaitForToken "groq" 30000; ECall 2; ESleep 4000;
      EWaitForToken "groq" 30000; ECall 3],
     Throw (newError "Rate limit exceeded. You've used all 30000 tokens. Please wait NaN minutes until the limit resets at Invalid Date.")).
Proof.
  split.
  - refine (proj1 (proj2 (retry_with_backoff string 0 noDate numberToString
                     invalidDate tokenGranted failsTwice
                     (Some "groq/llama-70b")
                     [throttled "1"; throttled "1"] _ _))
              "third" eq_refl eq_refl).
    + cbn. lia.
    + intros [|[|j]] Hj; cbn in Hj; try lia; repeat split.
  - refine (proj2 (proj2 (retry_with_backoff string 0 noDate numberToString
                     invalidDate tokenGranted alwaysThrottled
                     (Some "groq/llama-70b")
                     [throttled "5"; throttled "5"; throttled "5"] _ _))
              (throttled "5") eq_refl _).
    + cbn. lia.
    + intros [|[|[|j]]] Hj; cbn in Hj; try lia; repeat split.
    + repeat split.
Defined.

(** A node whose provider has no key fails at its first call, and a token
    wait that times out fails before any call. *)
Lemma other_failure_not_retried_witness :
  executeAgentNode string 0 noDate numberToString invalidDate tokenGranted
    (unconfigured (Some "anthropic/claude-sonnet-4-5-20250929"))
    (Some "anthropic/claude-sonnet-4-5-20250929") 3 =
    ([EWaitForToken "anthropic" 30000; ECall 0],
     Throw (newError "Missing API key. Please add your LLM provider key in Settings."))
  /\
  executeAgentNode string 0 noDate numberToString invalidDate tokenTimesOut
    failsTwice (Some "groq/llama-70b") 3 =
    ([EWaitForToken "groq" 30000],
     Throw (newError "Rate limit token timeout. Please try again later.")).
Proof.
  split.
  - refine (proj2 (other_failure_not_retried string 0 noDate numberToString
                     invalidDate tokenGranted
                     (unconfigured (Some "anthropic/claude-sonnet-4-5-20250929"))
                     (Some "anthropic/claude-sonnet-4-5-20250929") 3 [] _ _)
              (fun _ _ _ => Ok "unused") noKeys eq_refl eq_refl eq_refl).
    + cbn. lia.
    + intros j Hj. cbn in Hj. lia.
  - refine (proj1 (other_failure_not_retried string 0 noDate numberToString
                     invalidDate tokenTimesOut failsTwice
                     (Some "groq/llama-70b") 3 [] _ _)
              (newError "Rate limit token timeout. Please try again later.")
              eq_refl eq_refl).
    + cbn. lia.
    + intros j Hj. cbn in Hj. lia.
Defined.

(** Through [executeAgentNodeInternal] a provider rejection reaches the
    loop as a fresh error whose message starts with a capital: here it
    contains neither [rate limit] nor [429], and the loop throws it after
    the first call. *)
Remark provider_rejection_through_internal :
  executeAgentNode string 0 noDate numberToString invalidDate tokenGranted
    throttledProvider (Some "groq/llama-70b") 3 =
    ([EWaitForToken "groq" 30000; ECall 0],
     Throw (newError "Rate limit exceeded. You've used all 30000 tokens. Please wait NaN minutes until the limit resets at Invalid Date.")).
Proof. reflexivity. Qed.

End ControllerWitnesses.

(* ------------------------------------------------------------------ *)
(** ** Rate-limit signal extractor                                      *)
(* ------------------------------------------------------------------ *)

Section RateLimiterFacts.

Import RateLimiter.
Local Open Scope Z_scope.

Variable now : Z.
Variable parseDate : string -> number.

Local Abbreviation resetFarAway := (resetFarAway now parseDate).

Lemma greater_spec (x : number) (b : Z) :
  greater x b = true <-> exists z, x = Some z /\ b < z.
Proof.
  destruct x as [z|]; cbn.
  - rewrite Z.ltb_lt. split; [eauto|]. intros (z' & [= <-] & H). exact H.
  - split; [discriminate|]. intros (z & [=] & _).
Qed.

Lemma farAway_spec (d : RateLimitInfo) :
  greater (minus (parseDate (resetTime d)) now) (5 * 60 * 1000) = true
  <-> resetFarAway d.
Proof.
  rewrite greater_spec. unfold resetFarAway, minus. split.
  - intros (z & Hz & Hlt). destruct (parseDate (resetTime d)) as [reset|];
      [|discriminate]. injection Hz as <-. eauto.
  - intros (reset & -> & Hlt). eauto.
Qed.

(** C6. For a descriptor [d] and a count [r] of retries left:
    [shouldRetry(d, 0)] is false whatever [d] is, present or not; it is
    false when the remaining tokens of [d] are zero and its reset time
    lies more than five minutes after the current time; and in every other
    case, [r] not being zero, it is true. *)
Theorem shouldRetry_decision (d : RateLimitInfo) (r : nat) :
  shouldRetry now parseDate None 0 = false
  /\
  shouldRetry now parseDate (Some d) 0 = false
  /\
  (remainingTokens d = Some 0 -> resetFarAway d ->
   shouldRetry now parseDate (Some d) (Z.of_nat r) = false)
  /\
  (r <> 0%nat -> ~ (remainingTokens d = Some 0 /\ resetFarAway d) ->
   shouldRetry now parseDate (Some d) (Z.of_nat r) = true).
Proof.
  unfold shouldRetry. repeat split.
  - intros Hrem Hfar. destruct (Z.of_nat r <=? 0); [reflexivity|].
    rewrite Hrem. cbn [isZero Z.eqb].
    apply farAway_spec in Hfar. rewrite Hfar. reflexivity.
  - intros Hr Hnot.
    destruct (Z.leb_spec (Z.of_nat r) 0) as [Hle|_]; [lia|].
    destruct (isZero (remainingTokens d)) eqn:Hz; [|reflexivity].
    destruct (greater (minus (parseDate (resetTime d)) now) (5 * 60 * 1000))
      eqn:Hg; [|reflexivity].
    exfalso. apply Hnot. split.
    + destruct (remainingTokens d) as [z|]; [|discriminate].
      cbn in Hz. apply Z.eqb_eq in Hz. subst z. reflexivity.
    + apply farAway_spec. exact Hg.
Qed.

End RateLimiterFacts.

Section RateLimiterWitnesses.

Import RateLimiter Scenario.
Local Open Scope string_scope.
Local Open Scope Z_scope.

(** At time 1000: no retries left; no tokens left and a reset at 400000;
    no tokens left and a reset at 2000. *)
Lemma shouldRetry_decision_witness :
  shouldRetry 1000 millisDate (Some (descriptor (Some 0) "2000")) 0 = false /\
  shouldRetry 1000 millisDate (Some (descriptor (Some 0) "400000")) 3 = false /\
  shouldRetry 1000 millisDate (Some (descriptor (Some 0) "2000")) 3 = true.
Proof.
  split; [|split].
  - exact (proj1 (proj2 (shouldRetry_decision 1000 millisDate
                           (descriptor (Some 0) "2000") 3))).
  - apply (proj1 (proj2 (proj2 (shouldRetry_decision 1000 millisDate
                                  (descriptor (Some 0) "400000") 3)))).
    + reflexivity.
    + exists 400000. split; [reflexivity|lia].
  - apply (proj2 (proj2 (proj2 (shouldRetry_decision 1000 millisDate
                                  (descriptor (Some 0) "2000") 3)))).
    + discriminate.
    + intros [_ (reset & Hreset & Hfar)].
      cbn in Hreset. injection Hreset as <-. lia.
Defined.

End RateLimiterWitnesses.

(* ------------------------------------------------------------------ *)
(** ** Prompt optimizer                                                 *)
(* ------------------------------------------------------------------ *)

Section OptimizerFacts.

Import Js TokenOptimizer Scenario.
Local Open Scope string_scope.
Local Open Scope Z_scope.

Lemma optimizePrompt_fits (t : string) (m : Z) :
  len t <= m -> optimizePrompt t m = t.
Proof.
  intros H. unfold optimizePrompt.
  apply Z.leb_le in H. rewrite H. reflexivity.
Qed.

(** C3, as the code has it.  A text of at most [m] characters is returned
    unchanged, and a second pass returns the result of the first whenever
    that result has at most [m] characters; in particular [optimizePrompt]
    is idempotent at every text that fits. *)
Theorem optimizePrompt_fixed_when_fitting (t : string) (m : Z) :
  (len t <= m -> optimizePrompt t m = t)
  /\
  (len (optimizePrompt t m) <= m ->
   optimizePrompt (optimizePrompt t m) m = optimizePrompt t m).
Proof.
  split.
  - apply optimizePrompt_fits.
  - apply optimizePrompt_fits.
Qed.

Lemma optimizePrompt_fixed_when_fitting_witness :
  optimizePrompt "Summarise. Keep it short." 8000 = "Summarise. Keep it short."
  /\
  optimizePrompt (optimizePrompt "One. Two. Three. Four. Five. Six" 29) 29 =
    optimizePrompt "One. Two. Three. Four. Five. Six" 29.
Proof.
  split.
  - apply (proj1 (optimizePrompt_fixed_when_fitting
                    "Summarise. Keep it short." 8000)).
    vm_compute. discriminate.
  - apply (proj2 (optimizePrompt_fixed_when_fitting
                    "One. Two. Three. Four. Five. Six" 29)).
    vm_compute. discriminate.
Defined.

(** C3 fails as stated.  A text of 41 characters (11 estimated tokens)
    with the limit 10 grows to 46 characters (12 estimated tokens), and a
    second pass turns that result into the bare ellipsis. *)
Lemma optimizePrompt_not_idempotent :
  10 < len longFirstSentence /\
  10 < estimateTokenCount longFirstSentence /\
  optimizePrompt longFirstSentence 10 =
    "aaaaaaaaaaaaaaaaaaaa. aaaaaaaaaaaaaaaaaaaa...." /\
  estimateTokenCount longFirstSentence = 11 /\
  estimateTokenCount (optimizePrompt longFirstSentence 10) = 12 /\
  optimizePrompt (optimizePrompt longFirstSentence 10) 10 = "..." /\
  optimizePrompt (optimizePrompt longFirstSentence 10) 10
    <> optimizePrompt longFirstSentence 10.
Proof.
  vm_compute. repeat split; discriminate.
Qed.

(** The limit is compared with the number of characters: a text of 8
    characters and 2 estimated tokens is rewritten under the limit 7. *)
Remark optimizePrompt_compares_characters :
  estimateTokenCount "aaa bb c" = 2 /\
  optimizePrompt "aaa bb c" 7 = "aaa bb...".
Proof. vm_compute. split; reflexivity. Qed.

End OptimizerFacts.

(* ------------------------------------------------------------------ *)
(** ** Tool resolver                                                    *)
(* ------------------------------------------------------------------ *)

Section ResolverFacts.

Import Resolver Scenario.
Local Open Scope string_scope.

Lemma getField_setField_same k v o : getField k (setField k v o) = v.
Proof.
  induction o as [|[k' v'] o IH]; cbn.
  - rewrite String.eqb_refl. reflexivity.
  - destruct (String.eqb k k') eqn:E; cbn; rewrite E; [reflexivity|exact IH].
Qed.

Lemma getField_setField_other k k' v o :
  k <> k' -> getField k (setField k' v o) = getField k o.
Proof.
  intros Hne. induction o as [|[k2 v2] o IH]; cbn.
  - apply String.eqb_neq in Hne. rewrite Hne. reflexivity.
  - destruct (String.eqb k' k2) eqn:E; cbn.
    + apply String.eqb_eq in E. subst k2.
      apply String.eqb_neq in Hne. rewrite Hne. reflexivity.
    + rewrite IH. reflexivity.
Qed.

Lemma getField_deleteField_other k k' o :
  k <> k' -> getField k (deleteField k' o) = getField k o.
Proof.
  intros Hne. induction o as [|[k2 v2] o IH]; cbn; [reflexivity|].
  destruct (String.eqb k' k2) eqn:E; cbn.
  - apply String.eqb_eq in E. subst k2.
    apply String.eqb_neq in Hne. rewrite Hne. exact IH.
  - rewrite IH. reflexivity.
Qed.

Lemma hasField_deleteField_same k o : hasField k (deleteField k o) = false.
Proof.
  induction o as [|[k' v'] o IH]; cbn; [reflexivity|].
  destruct (String.eqb k k') eqn:E; cbn; [exact IH|].
  rewrite E, IH. reflexivity.
Qed.

Lemma forallb_strings ids : forallb typeofString (map VStr ids) = true.
Proof. induction ids; cbn; auto. Qed.

(** The first rewrite of [migrateMCPData] does not touch [tools]. *)
Lemma mcpTools_rewrite_keeps_tools (o : object) :
  getField "tools"
    match getField "mcpTools" o with
    | VArr tools =>
        if existsb typeofString tools
        then deleteField "mcpTools" (setField "mcpServerIds" (VArr tools) o)
        else o
    | _ => o
    end = getField "tools" o.
Proof.
  destruct (getField "mcpTools" o) as [| | | | |tools|]; try reflexivity.
  destruct (existsb typeofString tools); [|reflexivity].
  rewrite getField_deleteField_other by discriminate.
  apply getField_setField_other. discriminate.
Qed.

(** C9, as the code has it.  A configuration whose [tools] is an array of
    id strings only comes back with [mcpServerIds] equal to that array and
    without a [tools] field.  A configuration whose [tools] array has an
    element that is not a string keeps its [tools] field as it is, and
    comes back unchanged as a whole when the other two rewrites have
    nothing to do. *)
Theorem migrateMCPData_tools (config : object) :
  (forall ids,
      getField "tools" config = VArr (map VStr ids) ->
      exists migrated,
        migrateMCPData (VObj config) = VObj migrated /\
        getField "mcpServerIds" migrated = VArr (map VStr ids) /\
        hasField "tools" migrated = false)
  /\
  (forall items,
      getField "tools" config = VArr items ->
      forallb typeofString items = false ->
      (exists migrated,
          migrateMCPData (VObj config) = VObj migrated /\
          getField "tools" migrated = VArr items) /\
      (noOtherLegacy config = true ->
       migrateMCPData (VObj config) = VObj config)).
Proof.
  split.
  - intros ids Htools. unfold migrateMCPData. cbn [truthy negb spread].
    rewrite mcpTools_rewrite_keeps_tools, Htools, forallb_strings.
    eexists. split; [|split].
    + rewrite getField_deleteField_other by discriminate.
      rewrite getField_setField_same. reflexivity.
    + rewrite getField_deleteField_other by discriminate.
      apply getField_setField_same.
    + apply hasField_deleteField_same.
  - intros items Htools Hmixed. split.
    + unfold migrateMCPData. cbn [truthy negb spread].
      rewrite mcpTools_rewrite_keeps_tools, Htools, Hmixed.
      eexists. split; [reflexivity|].
      match goal with
      | |- getField _ (match ?x with _ => _ end) = _ => destruct x
      end;
        rewrite ?getField_setField_other by discriminate;
        try (rewrite mcpTools_rewrite_keeps_tools; exact Htools).
      all: match goal with
           | |- getField _ (if ?c then _ else _) = _ => destruct c
           end;
        rewrite ?getField_setField_other by discriminate;
        rewrite mcpTools_rewrite_keeps_tools; exact Htools.
    + intros Hclean. unfold noOtherLegacy in Hclean.
      apply andb_prop in Hclean. destruct Hclean as [Hmcp Hids].
      unfold migrateMCPData. cbn [truthy negb spread].
      assert (H1 : match getField "mcpTools" config with
                   | VArr tools =>
                       if existsb typeofString tools
                       then deleteField "mcpTools"
                              (setField "mcpServerIds" (VArr tools) config)
                       else config
                   | _ => config
                   end = config).
      { destruct (getField "mcpTools" config) as [| | | | |tools|];
          try reflexivity.
        apply negb_true_iff in Hmcp. rewrite Hmcp. reflexivity. }
      rewrite H1, Htools, Hmixed.
      destruct (getField "mcpServerIds" config) as [| |b|n|str|l|fs];
        cbn [truthy] in Hids |- *; try reflexivity; try discriminate;
        apply negb_true_iff in Hids; rewrite Hids; reflexivity.
Qed.

Lemma migrateMCPData_tools_witness :
  (exists migrated,
      migrateMCPData (VObj idsConfig) = VObj migrated /\
      getField "mcpServerIds" migrated = VArr [VStr "id1"; VStr "id2"] /\
      hasField "tools" migrated = false)
  /\
  migrateMCPData (VObj inlineConfig) = VObj inlineConfig.
Proof.
  split.
  - exact (proj1 (migrateMCPData_tools idsConfig) ["id1"; "id2"] eq_refl).
  - exact (proj2 (proj2 (migrateMCPData_tools inlineConfig)
                    [inlineTool] eq_refl eq_refl) eq_refl).
Defined.

(** C9 fails as stated: a configuration whose [tools] holds a full tool
    object, and whose [mcpTools] lists an id, is not returned unchanged. *)
Lemma migrateMCPData_changes_inline_config :
  getField "tools" mixedConfig = VArr [inlineTool] /\
  migrateMCPData (VObj mixedConfig) =
    VObj [ ("tools", VArr [inlineTool]);
           ("mcpServerIds", VArr [VStr "id1"]) ] /\
  migrateMCPData (VObj mixedConfig) <> VObj mixedConfig.
Proof.
  split; [reflexivity|]. split; [reflexivity|]. discriminate.
Qed.

(** *** Resolution *)

Lemma rowSelected_missing (ids : list string) (missing : string) (row : object) :
  getField "id" row <> VStr missing ->
  rowSelected (map VStr (ids ++ [missing])) row = rowSelected (map VStr ids) row.
Proof.
  intros Hne. unfold rowSelected.
  destruct (getField "id" row) as [| | | |s| |]; try reflexivity.
  rewrite map_app, existsb_app. cbn [map existsb isId].
  assert (Hs : String.eqb s missing = false).
  { apply String.eqb_neq. intros ->. apply Hne. reflexivity. }
  rewrite Hs. rewrite !orb_false_r. reflexivity.
Qed.

Lemma resolve_ids (table : list object) (ids : list string) :
  fst (resolveMCPServers (tableStore table) (Some (map VStr ids))) =
    Ok (map toExecutorFormat (filter (rowSelected (map VStr ids)) table)).
Proof.
  destruct ids as [|i ids]; cbn.
  - induction table as [|row table IH]; cbn; [reflexivity|].
    unfold rowSelected at 1. destruct (getField "id" row); exact IH.
  - reflexivity.
Qed.

(** C7. Resolution never throws, whatever the store does.  Against a store
    that answers the query from its table, a list of ids resolves to the
    configurations of the rows whose id is in the list, so that an id
    without a row changes nothing: it is dropped.  Resolving
    [["a", "missing"]] against a table that holds only [a] gives exactly
    the one configuration of [a]. *)
Theorem unknown_ids_dropped :
  (forall db serverIds,
      exists configs, fst (resolveMCPServers db serverIds) = Ok configs)
  /\
  (forall table (ids : list string),
      fst (resolveMCPServers (tableStore table) (Some (map VStr ids))) =
        Ok (map toExecutorFormat (filter (rowSelected (map VStr ids)) table)))
  /\
  (forall table (ids : list string) (missing : string),
      Forall (fun row => getField "id" row <> VStr missing) table ->
      fst (resolveMCPServers (tableStore table)
             (Some (map VStr (ids ++ [missing])))) =
      fst (resolveMCPServers (tableStore table) (Some (map VStr ids))))
  /\
  fst (resolveMCPServers (tableStore [serverA])
         (Some [VStr "a"; VStr "missing"])) = Ok [toExecutorFormat serverA].
Proof.
  split; [|split; [|split]].
  - intros db [[|first rest]|]; cbn; eauto.
    destruct (typeofObject first); cbn; eauto.
    destruct (db selectServers (first :: rest)); cbn; eauto.
  - apply resolve_ids.
  - intros table ids missing Hall. rewrite !resolve_ids. f_equal. f_equal.
    apply filter_ext_in. intros row Hin.
    apply rowSelected_missing.
    rewrite Forall_forall in Hall. apply Hall. exact Hin.
  - reflexivity.
Qed.

Lemma unknown_ids_dropped_witness :
  fst (resolveMCPServers (tableStore [serverA])
         (Some [VStr "a"; VStr "missing"])) =
  fst (resolveMCPServers (tableStore [serverA]) (Some [VStr "a"])).
Proof.
  apply (proj1 (proj2 (proj2 unknown_ids_dropped)) [serverA] ["a"] "missing").
  repeat constructor. discriminate.
Defined.

(** C10. When the first element of a list that is not empty is an object,
    [resolveMCPServers] returns the whole list as it is and sends nothing
    to the store, whatever follows the first element. *)
Theorem inline_first_skips_store
    (db : string -> list value -> res (list object))
    (first : value) (rest : list value) :
  typeofObject first = true ->
  resolveMCPServers db (Some (first :: rest)) = (Ok (first :: rest), []).
Proof.
  intros H. cbn. rewrite H. reflexivity.
Qed.

(** The id [a] after an inline object stays an id, although the store has
    a row for it. *)
Lemma inline_first_skips_store_witness :
  resolveMCPServers (tableStore [serverA]) (Some [inlineTool; VStr "a"]) =
    (Ok [inlineTool; VStr "a"], []).
Proof.
  apply inline_first_skips_store. reflexivity.
Defined.

End ResolverFacts.

(* ------------------------------------------------------------------ *)
(** ** Approval records                                                 *)
(* ------------------------------------------------------------------ *)

Section ApprovalsFacts.

Import Approvals Scenario.
Local Open Scope string_scope.

Lemma nth_error_update (f : Approval -> Approval) (t : table) (n : nat) a :
  nth_error t n = Some a -> nth_error (map f t) n = Some (f a).
Proof. intros H. rewrite nth_error_map, H. reflexivity. Qed.

(** C8, as the code has it.  [updateApprovalStatus] writes the given
    decision into every record with the given approval id, whatever the
    status of the record was, and leaves the status of the other records
    alone.  No operation of the module removes a record, changes its
    approval id, or takes it from a terminal status back to pending. *)
Theorem approval_status_overwritten :
  (forall i s by_ now (t : table) n a,
      nth_error t n = Some a ->
      exists a',
        nth_error (fst (updateApprovalStatus i s by_ now t)) n = Some a' /\
        approvalId a' = approvalId a /\
        approvalStatus a' =
          if String.eqb (approvalId a) i then statusOf s else approvalStatus a)
  /\
  (forall o (t : table) n a,
      nth_error t n = Some a ->
      exists a',
        nth_error (exec o t) n = Some a' /\
        approvalId a' = approvalId a /\
        (isTerminal (approvalStatus a) = true ->
         isTerminal (approvalStatus a') = true)).
Proof.
  split.
  - intros i s by_ now t n a Hn. cbn [updateApprovalStatus fst].
    eexists. split; [apply nth_error_update; exact Hn|].
    destruct (String.eqb (approvalId a) i); split; reflexivity.
  - intros o t n a Hn. destruct o; cbn [exec]; try solve [exists a; auto].
    + cbn [createApproval fst]. exists a. split; [|auto].
      rewrite nth_error_app1; [exact Hn|].
      apply nth_error_Some. congruence.
    + cbn [updateApprovalStatus fst].
      eexists. split; [apply nth_error_update; exact Hn|].
      destruct (String.eqb (approvalId a) approvalId0); split; auto.
      intros _. destruct s; reflexivity.
Qed.

Lemma approval_status_overwritten_witness :
  exists a',
    nth_error (fst (updateApprovalStatus "ap1" approve (Some "alice") "t1"
                      [pendingApproval])) 0 = Some a' /\
    approvalId a' = "ap1" /\
    approvalStatus a' = approved.
Proof.
  exact (proj1 approval_status_overwritten "ap1" approve (Some "alice") "t1"
           [pendingApproval] 0%nat pendingApproval eq_refl).
Defined.

(** C8 fails as stated: a record that was approved is rejected by a second
    call, so its status is written twice and changes after it was
    terminal. *)
Lemma terminal_status_changes :
  let t1 := exec (UpdateApprovalStatus "ap1" approve (Some "alice") "t1")
              [pendingApproval] in
  let t2 := exec (UpdateApprovalStatus "ap1" reject (Some "bob") "t2") t1 in
  map approvalStatus t1 = [approved] /\
  map approvalStatus t2 = [rejected] /\
  map approvalStatus t2 <> map approvalStatus t1.
Proof.
  cbn. repeat split. discriminate.
Qed.

End ApprovalsFacts.

(* ================================================================== *)
(** * Further properties of the code                                    *)
(* ================================================================== *)

(* ------------------------------------------------------------------ *)
(** ** Token bucket: admission, waiting times, the registry             *)
(* ------------------------------------------------------------------ *)

Section TokenBucketAdmission.

Import TokenBucket.
Local Open Scope Q_scope.






End TokenBucketAdmission.

Section TokenBucketWaiting.

Import TokenBucket.
Local Open Scope Q_scope.




Section Polling.

Variable clock : nat -> Z.

(** X3. [waitForToken] with a timeout that is not positive answers [false]
    at once: it reads the clock twice and neither refills nor consumes. *)
Theorem waitForToken_without_time (fuel : nat) (timeoutMs : Z) (w : world) :
  (forall i, (clock i <= clock (S i))%Z) ->
  (timeoutMs <= 0)%Z ->
  waitForToken clock (S fuel) timeoutMs w =
    (Some false, {| bucket := bucket w; tick := S (S (tick w)) |}).
Proof.
  intros Hmono Hto. unfold waitForToken, Date_now. cbn [waitLoop].
  unfold Date_now. cbn [bucket tick].
  specialize (Hmono (tick w)).
  destruct (Z.ltb_spec (clock (S (tick w)) - clock (tick w)) timeoutMs) as [H|H];
    [lia|reflexivity].
Qed.

Lemma lift_tick {A : Type} (f : Z -> t -> A * t) (w : world) :
  tick (snd (lift clock f w)) = S (tick w).
Proof.
  unfold lift, Date_now. cbn.
  destruct (f (clock (tick w)) (bucket w)); reflexivity.
Qed.

Lemma waitLoop_returns (fuel : nat) : forall startTime timeoutMs w,
  (forall i, (clock i < clock (S i))%Z) ->
  (0 < fuel)%nat ->
  (timeoutMs - (clock (tick w) - startTime) < Z.of_nat fuel)%Z ->
  exists answer w', waitLoop clock fuel startTime timeoutMs w = (Some answer, w').
Proof.
  induction fuel as [|fuel IH]; intros startTime timeoutMs w Hmono Hpos Hlt;
    [lia|].
  cbn [waitLoop]. unfold Date_now at 1. cbn [bucket tick].
  destruct (Z.ltb_spec (clock (tick w) - startTime) timeoutMs) as [Hin|Hout];
    [|eauto].
  pose proof (lift_tick tryConsume
                {| bucket := bucket w; tick := S (tick w) |}) as Htick.
  destruct (lift clock tryConsume {| bucket := bucket w; tick := S (tick w) |})
    as [ok w2]; cbn [snd tick] in Htick.
  destruct ok; [eauto|].
  apply IH; [exact Hmono| |].
  - lia.
  - rewrite Htick.
    pose proof (Hmono (tick w)). pose proof (Hmono (S (tick w))). lia.
Qed.

(** X4. On a clock that advances between two readings, [waitForToken]
    returns: it answers after at most [timeoutMs + 1] polls, with or
    without a token. *)
Theorem waitForToken_returns (fuel : nat) (timeoutMs : Z) (w : world) :
  (forall i, (clock i < clock (S i))%Z) ->
  (0 < fuel)%nat -> (timeoutMs < Z.of_nat fuel)%Z ->
  exists answer w', waitForToken clock fuel timeoutMs w = (Some answer, w').
Proof.
  intros Hmono Hpos Hlt. unfold waitForToken, Date_now. cbn [bucket tick].
  apply waitLoop_returns; [exact Hmono|exact Hpos|].
  cbn [tick]. pose proof (Hmono (tick w)). lia.
Qed.

End Polling.

Lemma waitForToken_without_time_witness :
  waitForToken (fun i => 5000 + 100 * Z.of_nat i)%Z 3 0
    (create (fun i => 5000 + 100 * Z.of_nat i)%Z 3 5) =
  (Some false, {| bucket := new 3 5 5000; tick := 3 |}).
Proof.
  apply (waitForToken_without_time (fun i => 5000 + 100 * Z.of_nat i)%Z 2 0).
  - intros i. lia.
  - lia.
Defined.

(** An empty bucket whose rate is zero never gives a token: the wait of
    250 ms polls three times and answers [false]. *)
Lemma waitForToken_returns_witness :
  exists w',
    waitForToken (fun i => 100 * Z.of_nat i)%Z 251 250
      {| bucket := {| tokens := 0; lastRefill := 0; tokensPerSecond := 0;
                      maxTokens := 5 |};
         tick := 0 |} = (Some false, w').
Proof.
  destruct (waitForToken_returns (fun i => 100 * Z.of_nat i)%Z 251 250
              {| bucket := {| tokens := 0; lastRefill := 0;
                              tokensPerSecond := 0; maxTokens := 5 |};
                 tick := 0 |}) as (answer & w' & H).
  - intros i. lia.
  - lia.
  - lia.
  - exists w'. rewrite H. f_equal.
    assert (E : fst (waitForToken (fun i => 100 * Z.of_nat i)%Z 251 250
                       {| bucket := {| tokens := 0; lastRefill := 0;
                                       tokensPerSecond := 0; maxTokens := 5 |};
                          tick := 0 |}) = Some false) by (vm_compute; reflexivity).
    rewrite H in E. exact E.
Defined.

End TokenBucketWaiting.

Section RegistryFacts.

Import Js Agent.
Local Open Scope string_scope.

Local Abbreviation threeProviders := ProviderRateLimiter.threeProviders.

Lemma get_unknown (provider : string) (r : ProviderRateLimiter.registry) :
  threeProviders r ->
  provider <> "anthropic" -> provider <> "openai" -> provider <> "groq" ->
  ProviderRateLimiter.get provider r = None.
Proof.
  unfold ProviderRateLimiter.threeProviders. intros Hkeys Ha Ho Hg.
  destruct r as [|[k1 b1] [|[k2 b2] [|[k3 b3] [|]]]]; try discriminate.
  cbn in Hkeys. injection Hkeys as -> -> ->. cbn.
  apply String.eqb_neq in Ha, Ho, Hg. rewrite Ha, Ho, Hg. reflexivity.
Qed.

(** X5. A provider name the registry does not know gets the bucket of
    [anthropic] itself, not a bucket of its own: consuming under that name
    is consuming from [anthropic], and the other buckets are left alone. *)
Theorem unknown_provider_shares_anthropic_bucket
    (provider : string) (now : Z) (r : ProviderRateLimiter.registry) :
  threeProviders r ->
  provider <> "anthropic" -> provider <> "openai" -> provider <> "groq" ->
  ProviderRateLimiter.tryConsume provider now r =
    ProviderRateLimiter.tryConsume "anthropic" now r
  /\ ProviderRateLimiter.get "openai"
       (snd (ProviderRateLimiter.tryConsume provider now r)) =
     ProviderRateLimiter.get "openai" r
  /\ ProviderRateLimiter.get "groq"
       (snd (ProviderRateLimiter.tryConsume provider now r)) =
     ProviderRateLimiter.get "groq" r.
Proof.
  intros Hkeys Ha Ho Hg.
  unfold ProviderRateLimiter.threeProviders in Hkeys.
  destruct r as [|[k1 b1] [|[k2 b2] [|[k3 b3] [|]]]]; try discriminate.
  cbn in Hkeys. injection Hkeys as -> -> ->.
  apply String.eqb_neq in Ha, Ho, Hg.
  unfold ProviderRateLimiter.tryConsume, ProviderRateLimiter.getBucket,
    ProviderRateLimiter.bucketKey. cbn. rewrite Ha, Ho, Hg. cbn.
  destruct (TokenBucket.tryConsume now b1); cbn. repeat split.
Qed.

(** A call under the name [mistral] on the fresh registry is a call on the
    [anthropic] bucket. *)
Lemma unknown_provider_shares_anthropic_bucket_witness :
  let r0 := ProviderRateLimiter.new 0 0 0 in
  let r1 := snd (ProviderRateLimiter.tryConsume "mistral" 0 r0) in
  ProviderRateLimiter.tryConsume "mistral" 0 r0 =
    ProviderRateLimiter.tryConsume "anthropic" 0 r0
  /\ ProviderRateLimiter.get "openai" r1 = ProviderRateLimiter.get "openai" r0
  /\ ProviderRateLimiter.get "groq" r1 = ProviderRateLimiter.get "groq" r0.
Proof.
  apply (unknown_provider_shares_anthropic_bucket "mistral" 0
           (ProviderRateLimiter.new 0 0 0));
    [reflexivity|discriminate|discriminate|discriminate].
Defined.

Lemma hd_onHead (c : ascii) (pieces : list string) :
  hd EmptyString (onHead c pieces) = String c (hd EmptyString pieces).
Proof. destruct pieces; reflexivity. Qed.

Lemma no_separator_one_piece (sep : ascii) (m : string) :
  cutAt sep m = None -> hd EmptyString (splitChar sep m) = m.
Proof.
  induction m as [|c m IH]; cbn; [reflexivity|].
  destruct (Ascii.eqb c sep); [discriminate|].
  destruct (cutAt sep m) as [[a b]|]; [discriminate|].
  intros _. rewrite hd_onHead, IH; reflexivity.
Qed.

(** X6. A model name without a provider prefix, such as [gpt-4o], is
    dispatched to [openai], but the retry loop takes the name itself for
    the provider, which the registry does not know: the call is charged to
    the bucket of [anthropic]. *)
Theorem unprefixed_model_charged_to_anthropic
    (m : string) (r : ProviderRateLimiter.registry) :
  threeProviders r ->
  m <> "" -> cutAt "/" m = None ->
  m <> "anthropic" -> m <> "openai" -> m <> "groq" ->
  fst (parseModel (Some m)) = "openai" /\
  ProviderRateLimiter.bucketKey (rateProvider (Some m)) r = "anthropic".
Proof.
  intros Hkeys Hne Hcut Ha Ho Hg. split.
  - unfold parseModel. destruct m as [|c m]; [contradiction|].
    rewrite Hcut. reflexivity.
  - assert (Hp : rateProvider (Some m) = m).
    { unfold rateProvider. rewrite (no_separator_one_piece "/" m Hcut).
      destruct m; [contradiction|reflexivity]. }
    rewrite Hp. unfold ProviderRateLimiter.bucketKey.
    rewrite (get_unknown m r Hkeys Ha Ho Hg). reflexivity.
Qed.

Lemma unprefixed_model_charged_to_anthropic_witness :
  fst (parseModel (Some "gpt-4o")) = "openai" /\
  ProviderRateLimiter.bucketKey (rateProvider (Some "gpt-4o"))
    (ProviderRateLimiter.new 0 0 0) = "anthropic".
Proof.
  apply (unprefixed_model_charged_to_anthropic "gpt-4o"
           (ProviderRateLimiter.new 0 0 0));
    [reflexivity|discriminate|reflexivity|discriminate|discriminate|discriminate].
Defined.

End RegistryFacts.

(* ------------------------------------------------------------------ *)
(** ** Prompt optimizer: thresholds and sizes                           *)
(* ------------------------------------------------------------------ *)

Section OptimizerSizes.

Import Js TokenOptimizer.
Local Open Scope string_scope.
Local Open Scope Z_scope.

Lemma len_nonneg (s : string) : 0 <= len s.
Proof. unfold len. lia. Qed.

Lemma len_append (a b : string) : len (a ++ b) = len a + len b.
Proof.
  unfold len. induction a as [|c a IH]; cbn [append String.length].
  - lia.
  - rewrite !Nat2Z.inj_succ. lia.
Qed.

Lemma len_takeChars (n : nat) (s : string) : len (takeChars n s) <= Z.of_nat n.
Proof.
  unfold len. revert s. induction n as [|n IH]; intros s; cbn.
  - lia.
  - destruct s as [|c s]; cbn; [lia|]. specialize (IH s). lia.
Qed.

Lemma len_dropChars (n : nat) (s : string) :
  len (dropChars n s) = Z.max 0 (len s - Z.of_nat n).
Proof.
  unfold len. revert s. induction n as [|n IH]; intros s; cbn [dropChars].
  - lia.
  - destruct s as [|c s]; cbn [String.length]; [lia|]. rewrite IH. lia.
Qed.

Lemma isPromptTooLong_iff (prompt : string) (contextWindow : Z) :
  isPromptTooLong prompt contextWindow = true
  <-> 4 * (4 * contextWindow / 5) < len prompt.
Proof.
  unfold isPromptTooLong, estimateTokenCount.
  rewrite Z.ltb_lt. pose proof (len_nonneg prompt).
  Z.to_euclidean_division_equations. lia.
Qed.

(** X7. [isPromptTooLong] is a threshold on the number of characters: it
    holds exactly when the text has more than [4 * floor(4/5 *
    contextWindow)] characters, which is 640000 for the default window and
    48000 for the window 15000 that the agent executor passes. *)
Theorem isPromptTooLong_threshold (prompt : string) (contextWindow : Z) :
  (isPromptTooLong prompt contextWindow = true
   <-> 4 * (4 * contextWindow / 5) < len prompt)
  /\ (isPromptTooLong prompt 200000 = true <-> 640000 < len prompt)
  /\ (isPromptTooLong prompt 15000 = true <-> 48000 < len prompt).
Proof.
  split; [apply isPromptTooLong_iff|]. split.
  - rewrite (isPromptTooLong_iff prompt 200000). reflexivity.
  - rewrite (isPromptTooLong_iff prompt 15000). reflexivity.
Qed.

(** X8. For a limit that is not negative, the result of
    [optimizeLargeContent] has at most [4 * maxTokens + 31] characters, the
    31 being the truncation marker; so has the result of [optimizePrompt]
    on a text of more than 20000 characters. *)
Theorem large_content_is_cut_to_size (content : string) (maxTokens : Z) :
  0 <= maxTokens ->
  len (optimizeLargeContent content maxTokens) <= 4 * maxTokens + 31
  /\ (20000 < len content ->
      len (optimizePrompt content maxTokens) <= 4 * maxTokens + 31).
Proof.
  intros Hm.
  assert (Hlarge : len (optimizeLargeContent content maxTokens)
                   <= 4 * maxTokens + 31).
  { unfold optimizeLargeContent.
    assert (Hcut : len (substringTo (maxTokens * 4 / 2) content
                          ++ truncationMarker
                          ++ substringFrom (len content - maxTokens * 4 / 2) content)
                   <= 4 * maxTokens + 31).
    { rewrite !len_append. unfold substringTo, substringFrom.
      pose proof (len_takeChars (Z.to_nat (maxTokens * 4 / 2)) content) as Ht.
      rewrite len_dropChars.
      change (len truncationMarker) with 31.
      pose proof (len_nonneg content).
      replace (maxTokens * 4 / 2) with (2 * maxTokens) in *
        by (Z.to_euclidean_division_equations; lia).
      lia. }
    destruct (0 <? Z.of_nat (length (essentialLines (splitChar LF content))));
      [|exact Hcut].
    destruct (Z.leb_spec
                (len (join (String LF "") (essentialLines (splitChar LF content))))
                (maxTokens * 4)) as [Hfit|_]; [lia|exact Hcut]. }
  split; [exact Hlarge|].
  intros Hbig. unfold optimizePrompt.
  destruct (Z.leb_spec (len content) maxTokens) as [Hfit|_]; [lia|].
  apply Z.ltb_lt in Hbig. rewrite Hbig. exact Hlarge.
Qed.

End OptimizerSizes.

(* ------------------------------------------------------------------ *)
(** ** Rate-limit utilities: waiting times and fallbacks                *)
(* ------------------------------------------------------------------ *)

Section RateLimiterMore.

Import RateLimiter.
Local Open Scope string_scope.
Local Open Scope Z_scope.



Lemma extract_without_headers (error : thrown) :
  headersOf error = None -> extractRateLimitInfo error = None.
Proof. intros H. unfold extractRateLimitInfo. rewrite H. reflexivity. Qed.

Lemma extract_blank_headers (error : thrown) get :
  headersOf error = Some get ->
  (forall name, get name = None \/ get name = Some "") ->
  extractRateLimitInfo error = Some fallbackInfo.
Proof.
  intros Hget Hnone.
  assert (Hor : forall name fallback, headerOr get name fallback = fallback).
  { intros name fallback. unfold headerOr.
    destruct (Hnone name) as [-> | ->]; reflexivity. }
  unfold extractRateLimitInfo. rewrite Hget, !Hor. reflexivity.
Qed.

(** X10. An error without a [headers] property has no descriptor.  One
    whose headers carry none of the rate-limit fields (absent or empty)
    gets the fallback descriptor: 60 s to wait and 0 tokens remaining of
    30000, so that its message is the one for an exhausted quota. *)
Theorem extractRateLimitInfo_fallbacks (error : thrown) :
  (headersOf error = None -> extractRateLimitInfo error = None)
  /\
  (forall get,
      headersOf error = Some get ->
      (forall name, get name = None \/ get name = Some "") ->
      extractRateLimitInfo error = Some fallbackInfo /\
      forall now parseDate toLocaleString toLocaleTimeString,
        getRateLimitMessage now parseDate toLocaleString toLocaleTimeString
          (extractRateLimitInfo error) =
        "Rate limit exceeded. You've used all "
          ++ toLocaleString (Some 30000)
          ++ " tokens. Please wait "
          ++ numberToString (ceilMinutes (minus (parseDate "") now))
          ++ " minutes until the limit resets at "
          ++ toLocaleTimeString (parseDate "") ++ ".").
Proof.
  split; [apply extract_without_headers|].
  intros get Hget Hnone.
  pose proof (extract_blank_headers error get Hget Hnone) as Hinfo.
  split; [exact Hinfo|]. intros. rewrite Hinfo. reflexivity.
Qed.

Lemma extractRateLimitInfo_fallbacks_witness :
  extractRateLimitInfo (ErrorObj "429" None) = None /\
  extractRateLimitInfo (ErrorObj "429" (Some (fun _ => None))) = Some fallbackInfo.
Proof.
  split.
  - exact (proj1 (extractRateLimitInfo_fallbacks (ErrorObj "429" None)) eq_refl).
  - exact (proj1 (proj2 (extractRateLimitInfo_fallbacks
                           (ErrorObj "429" (Some (fun _ => None))))
                    (fun _ => None) eq_refl (fun _ => or_introl eq_refl))).
Defined.

(** [shouldRetry] on what [extractRateLimitInfo] gives: never for an
    error without headers, whatever the budget; and for headers without
    rate-limit fields, whose empty reset time is no date, exactly when the
    budget is positive. *)
Theorem shouldRetry_on_extracted (error : thrown) (now : Z)
    (parseDate : string -> number) (maxRetries : Z) :
  (headersOf error = None ->
   shouldRetry now parseDate (extractRateLimitInfo error) maxRetries = false)
  /\
  (forall get,
      headersOf error = Some get ->
      (forall name, get name = None \/ get name = Some "") ->
      parseDate "" = None ->
      shouldRetry now parseDate (extractRateLimitInfo error) maxRetries
        = (0 <? maxRetries)).
Proof.
  split.
  - intros H. rewrite (extract_without_headers error H). reflexivity.
  - intros get Hget Hnone Hdate.
    rewrite (extract_blank_headers error get Hget Hnone).
    unfold shouldRetry. cbn [fallbackInfo remainingTokens
      resetTime isZero Z.eqb]. rewrite Hdate. cbn [minus greater].
    destruct (Z.leb_spec maxRetries 0); destruct (Z.ltb_spec 0 maxRetries);
      try reflexivity; lia.
Qed.

Lemma shouldRetry_on_extracted_witness :
  shouldRetry 0 (fun _ => None) (extractRateLimitInfo (ErrorObj "429" None)) 3
    = false /\
  shouldRetry 0 (fun _ => None)
    (extractRateLimitInfo (ErrorObj "429" (Some (fun _ => None)))) 3 = true.
Proof.
  split.
  - exact (proj1 (shouldRetry_on_extracted (ErrorObj "429" None) 0
                    (fun _ => None) 3) eq_refl).
  - exact (proj2 (shouldRetry_on_extracted
                    (ErrorObj "429" (Some (fun _ => None))) 0 (fun _ => None) 3)
             (fun _ => None) eq_refl (fun _ => or_introl eq_refl) eq_refl).
Defined.

End RateLimiterMore.

(* ------------------------------------------------------------------ *)
(** ** Retry loop: budgets, messages, routing                           *)
(* ------------------------------------------------------------------ *)

Section ControllerBounds.

Import Js RateLimiter Agent.
Local Open Scope string_scope.
Local Open Scope Z_scope.

Variable payload : Type.
Variable now : Z.
Variable parseDate : string -> number.
Variable toLocaleString : number -> string.
Variable toLocaleTimeString : number -> string.
Variable waitForToken : Z -> string -> Z -> bool.
Variable internal : Z -> res payload.
Variable model : option string.

Local Abbreviation attempts :=
  (attempts payload now parseDate toLocaleString toLocaleTimeString
     waitForToken internal model).
Local Abbreviation attemptOnce :=
  (attemptOnce payload waitForToken internal model).
Local Abbreviation executeAgentNode :=
  (executeAgentNode payload now parseDate toLocaleString toLocaleTimeString
     waitForToken internal model).

Lemma calls_app (a b : list event) : calls (a ++ b) = (calls a + calls b)%nat.
Proof.
  induction a as [|[p t|i|ms] a IH]; cbn; try rewrite IH; reflexivity.
Qed.

Lemma tokenWaits_app (a b : list event) :
  tokenWaits (a ++ b) = (tokenWaits a + tokenWaits b)%nat.
Proof.
  induction a as [|[p t|i|ms] a IH]; cbn; try rewrite IH; reflexivity.
Qed.

Lemma sleepTotal_app (a b : list event) :
  sleepTotal (a ++ b) = sleepTotal a + sleepTotal b.
Proof.
  induction a as [|[p t|i|ms] a IH]; cbn; try rewrite IH; lia.
Qed.

Lemma attemptOnce_events (i : Z) :
  (calls (fst (attemptOnce i)) <= 1)%nat /\
  tokenWaits (fst (attemptOnce i)) = 1%nat /\
  sleepTotal (fst (attemptOnce i)) = 0.
Proof.
  unfold Agent.attemptOnce.
  destruct (waitForToken i (rateProvider model) 30000); cbn; repeat split; lia.
Qed.

Lemma backoffDelay_le (info : option RateLimitInfo) (i : Z) :
  backoffDelay info i <= 1000 * 2 ^ i.
Proof. unfold backoffDelay. apply Z.le_min_r. Qed.

Lemma attempts_bounds (fuel : nat) : forall attempt maxRetries last,
  0 <= attempt ->
  Z.of_nat fuel = maxRetries + 1 - attempt ->
  (calls (fst (attempts fuel attempt maxRetries last)) <= fuel)%nat /\
  (tokenWaits (fst (attempts fuel attempt maxRetries last)) <= fuel)%nat /\
  (calls (fst (attempts fuel attempt maxRetries last))
     <= tokenWaits (fst (attempts fuel attempt maxRetries last)))%nat /\
  sleepTotal (fst (attempts fuel attempt maxRetries last))
    <= 1000 * (2 ^ Z.max attempt maxRetries - 2 ^ attempt).
Proof.
  induction fuel as [|fuel IH]; intros attempt maxRetries last H0 Hfuel.
  - cbn [Agent.attempts fst calls tokenWaits sleepTotal].
    change (Z.of_nat 0) with 0 in Hfuel.
    replace (Z.max attempt maxRetries) with attempt by lia.
    repeat split; lia.
  - cbn [Agent.attempts].
    destruct (attemptOnce_events attempt) as (Hc & Hw & Hs).
    assert (Hcw : (calls (fst (attemptOnce attempt))
                   <= tokenWaits (fst (attemptOnce attempt)))%nat) by lia.
    assert (Hpow : 2 ^ attempt <= 2 ^ Z.max attempt maxRetries)
      by (apply Z.pow_le_mono_r; lia).
    destruct (attemptOnce attempt) as [evs tried]; cbn [fst] in *.
    destruct tried as [result|error]; cbn [fst].
    + repeat split; lia.
    + destruct (isRateLimitMessage (messageOf error)); cbn [fst];
        [|repeat split; lia].
      destruct (Z.eqb_spec attempt maxRetries) as [Heq|Hne]; cbn [fst];
        [repeat split; lia|].
      specialize (IH (attempt + 1) maxRetries error).
      destruct (attempts fuel (attempt + 1) maxRetries error) as [later final].
      cbn [fst] in *.
      destruct IH as (IHc & IHw & IHcw & IHs); [lia|lia|].
      rewrite calls_app, tokenWaits_app, sleepTotal_app. cbn [calls tokenWaits sleepTotal].
      pose proof (backoffDelay_le (extractRateLimitInfo error) attempt) as Hb.
      replace (Z.max (attempt + 1) maxRetries) with (Z.max attempt maxRetries)
        in IHs by lia.
      rewrite Z.pow_add_r in IHs by lia. change (2 ^ 1) with 2 in IHs.
      repeat split; lia.
Qed.

(** X11. Whatever the token waits and the calls do, with a budget of
    [maxRetries >= 0] the loop makes at most [maxRetries + 1] calls, each
    after a wait on the rate registry, and asks for at most
    [1000 * (2^maxRetries - 1)] ms of sleep in total: 7 s with the default
    budget. *)
Theorem retry_loop_is_bounded (maxRetries : Z) :
  0 <= maxRetries ->
  Z.of_nat (calls (fst (executeAgentNode maxRetries))) <= maxRetries + 1 /\
  Z.of_nat (tokenWaits (fst (executeAgentNode maxRetries))) <= maxRetries + 1 /\
  (calls (fst (executeAgentNode maxRetries))
     <= tokenWaits (fst (executeAgentNode maxRetries)))%nat /\
  sleepTotal (fst (executeAgentNode maxRetries)) <= 1000 * (2 ^ maxRetries - 1).
Proof.
  intros H0. unfold Agent.executeAgentNode.
  destruct (attempts_bounds (Z.to_nat (maxRetries + 1)) 0 maxRetries undefined)
    as (Hc & Hw & Hcw & Hs); [lia|lia|].
  replace (Z.max 0 maxRetries) with maxRetries in Hs by lia.
  change (2 ^ 0) with 1 in Hs. repeat split; lia.
Qed.

(** With a negative budget the loop body never runs: no wait, no
    call, and what is thrown is the initial value of [lastError],
    [undefined]. *)
Theorem negative_budget_throws_undefined (maxRetries : Z) :
  maxRetries < 0 ->
  executeAgentNode maxRetries = ([], Throw undefined).
Proof.
  intros H. unfold Agent.executeAgentNode.
  replace (Z.to_nat (maxRetries + 1)) with O by lia. reflexivity.
Qed.

End ControllerBounds.

Section ControllerBoundsWitnesses.

Import RateLimiter Agent Scenario.
Local Open Scope string_scope.
Local Open Scope Z_scope.

(** The provider throttled at every attempt: four calls and 7000 ms. *)
Lemma retry_loop_is_bounded_witness :
  let run := executeAgentNode string 0 noDate numberToString invalidDate
               tokenGranted alwaysThrottled (Some "groq/llama-70b") 3 in
  calls (fst run) = 4%nat /\ sleepTotal (fst run) = 7000 /\
  sleepTotal (fst run) <= 1000 * (2 ^ 3 - 1).
Proof.
  split; [reflexivity|]. split; [reflexivity|].
  apply (retry_loop_is_bounded string 0 noDate numberToString invalidDate
           tokenGranted alwaysThrottled (Some "groq/llama-70b") 3).
  lia.
Defined.

Lemma negative_budget_throws_undefined_witness :
  executeAgentNode string 0 noDate numberToString invalidDate tokenGranted
    failsTwice (Some "groq/llama-70b") (-1) = ([], Throw undefined).
Proof.
  apply negative_budget_throws_undefined. lia.
Defined.

End ControllerBoundsWitnesses.

Section ErrorMapping.

Import Js RateLimiter Agent.
Local Open Scope string_scope.
Local Open Scope Z_scope.

Lemma prefix_split (a m : string) :
  String.prefix a m = true -> exists rest, m = a ++ rest.
Proof.
  revert m. induction a as [|c a IH]; intros m H.
  - exists m. reflexivity.
  - destruct m as [|c' m]; cbn in H; [discriminate|].
    destruct (ascii_dec c c') as [<-|]; [|discriminate].
    destruct (IH m H) as [rest ->]. exists rest. reflexivity.
Qed.

Lemma prefix_append (b a rest : string) :
  String.prefix b a = true -> String.prefix b (a ++ rest) = true.
Proof.
  revert a. induction b as [|c b IH]; intros a H;
    [destruct (a ++ rest); reflexivity|].
  destruct a as [|c' a]; cbn in H |- *; [discriminate|].
  destruct (ascii_dec c c'); [apply IH; exact H|discriminate].
Qed.

Lemma includes_cons (b : string) (c : ascii) (m : string) :
  includes b m = true -> includes b (String c m) = true.
Proof.
  intros H. cbn [includes].
  destruct (String.prefix b (String c m)); [reflexivity|exact H].
Qed.

Lemma includes_append (b a rest : string) :
  includes b a = true -> includes b (a ++ rest) = true.
Proof.
  induction a as [|c a IH]; intros H.
  - cbn in H. destruct b; [|discriminate]. destruct rest; reflexivity.
  - cbn [includes] in H.
    destruct (String.prefix b (String c a)) eqn:E.
    + pose proof (prefix_append b (String c a) rest E) as E'.
      cbn [append] in E' |- *. cbn [includes]. rewrite E'. reflexivity.
    + cbn [append]. apply includes_cons. apply IH. exact H.
Qed.

(** A part of a part is a part. *)
Lemma includes_trans (b a m : string) :
  includes b a = true -> includes a m = true -> includes b m = true.
Proof.
  intros Hba. induction m as [|c m IH]; intros Ham.
  - cbn in Ham. destruct a; [exact Hba|discriminate].
  - cbn [includes] in Ham.
    destruct (String.prefix a (String c m)) eqn:E.
    + destruct (prefix_split a (String c m) E) as [rest ->].
      apply includes_append. exact Hba.
    + apply includes_cons. apply IH. exact Ham.
Qed.

Variable payload : Type.
Variable now : Z.
Variable parseDate : string -> number.
Variable toLocaleString : number -> string.
Variable toLocaleTimeString : number -> string.

(** X12. The [catch] of [executeAgentNodeInternal] has three outcomes, not
    four: a message with [No API key available] in it has [API key] in it
    and is caught by the first test, so the text about [.env.local] is
    never produced.  What is thrown is always a fresh [Error]: the
    missing-key text, the rate-limit message, or the original message
    after [Agent execution failed: ]. *)
Theorem userFacing_has_three_outcomes (error : thrown) :
  userFacing payload now parseDate toLocaleString toLocaleTimeString error =
    Throw (newError
      (if includes "API key" (messageOf error)
          || includes "api_key" (messageOf error)
       then missingKeyMessage
       else if isRateLimitMessage (messageOf error)
       then getRateLimitMessage now parseDate toLocaleString
              toLocaleTimeString (extractRateLimitInfo error)
       else "Agent execution failed: " ++ messageOf error)).
Proof.
  unfold userFacing.
  destruct (includes "API key" (messageOf error)) eqn:Ekey; [reflexivity|].
  cbn [orb].
  destruct (includes "api_key" (messageOf error)); [reflexivity|].
  destruct (isRateLimitMessage (messageOf error)); [reflexivity|].
  destruct (includes "No API key available" (messageOf error)) eqn:Eno;
    [|reflexivity].
  rewrite (includes_trans "API key" "No API key available" (messageOf error)
             eq_refl Eno) in Ekey.
  discriminate.
Qed.

(** X13. Whatever [executeAgentNodeInternal] throws carries no headers, so
    the retry loop finds no descriptor in it and its delay after attempt
    [i] is [min(60000, 1000 * 2^i)], whatever [retry-after] the provider
    sent. *)
Theorem backoff_ignores_retry_after prepare mockResponse assemble
    callProvider model apiKeys (e : thrown) (i : Z) :
  executeAgentNodeInternal payload now parseDate toLocaleString
    toLocaleTimeString prepare mockResponse assemble callProvider model
    apiKeys = Throw e ->
  backoffDelay (extractRateLimitInfo e) i = Z.min 60000 (1000 * 2 ^ i).
Proof.
  intros H.
  rewrite (internal_error_has_no_headers payload now parseDate toLocaleString
             toLocaleTimeString model prepare mockResponse assemble
             callProvider apiKeys e H).
  reflexivity.
Qed.

(** X14. A rate-limit error without headers thrown inside
    [executeAgentNodeInternal] is not retried: it is rethrown with the
    message [Rate limited. Please wait ...], which has neither [rate
    limit] nor [429] in it, and the loop throws that after the first
    call. *)
Theorem rate_limit_without_headers_is_not_retried
    (waitForToken : Z -> string -> Z -> bool)
    prepare mockResponse assemble callProvider model apiKeys
    (e : thrown) (maxRetries : Z) :
  0 <= maxRetries ->
  waitForToken 0 (rateProvider model) 30000 = true ->
  internalBody payload prepare mockResponse assemble callProvider model apiKeys
    = Throw e ->
  headersOf e = None ->
  isRateLimitMessage (messageOf e) = true ->
  includes "API key" (messageOf e) || includes "api_key" (messageOf e) = false ->
  executeAgentNode payload now parseDate toLocaleString toLocaleTimeString
    waitForToken
    (fun _ => executeAgentNodeInternal payload now parseDate toLocaleString
                toLocaleTimeString prepare mockResponse assemble callProvider
                model apiKeys)
    model maxRetries =
  ([EWaitForToken (rateProvider model) 30000; ECall 0],
   Throw (newError "Rate limited. Please wait a moment and try again.")).
Proof.
  intros H0 Htok Hbody Hhead Hrl Hkey.
  unfold executeAgentNode.
  replace (Z.to_nat (maxRetries + 1)) with (S (Z.to_nat maxRetries)) by lia.
  cbn [attempts]. unfold attemptOnce. rewrite Htok. cbn [negb].
  unfold executeAgentNodeInternal. rewrite Hbody. cbn [tryCatch].
  unfold userFacing. rewrite Hkey, Hrl.
  unfold extractRateLimitInfo. rewrite Hhead. reflexivity.
Qed.

End ErrorMapping.

Section ErrorMappingWitnesses.

Import RateLimiter Agent Scenario.
Local Open Scope string_scope.
Local Open Scope Z_scope.

(** The provider answers 429 with [retry-after: 1]; the delay after
    attempt 0 would be 1000 ms and after attempt 7 it is 60000 ms. *)
Lemma backoff_ignores_retry_after_witness :
  exists e,
    throttledProvider 0 = Throw e /\
    backoffDelay (extractRateLimitInfo e) 7 = 60000.
Proof.
  eexists. split; [reflexivity|].
  refine (backoff_ignores_retry_after string 0 noDate numberToString
            invalidDate (Ok tt) None (Ok tt)
            (fun _ _ _ => Throw (throttled "1"))
            (Some "groq/llama-70b") (Some groqKey) _ 7 eq_refl).
Defined.

Lemma rate_limit_without_headers_is_not_retried_witness :
  executeAgentNode string 0 noDate numberToString invalidDate tokenGranted
    (fun _ => executeAgentNodeInternal string 0 noDate numberToString
                invalidDate (Ok tt) None (Ok tt)
                (fun _ _ _ => Throw (newError "429 Too Many Requests"))
                (Some "groq/llama-70b") (Some groqKey))
    (Some "groq/llama-70b") 3 =
  ([EWaitForToken "groq" 30000; ECall 0],
   Throw (newError "Rate limited. Please wait a moment and try again.")).
Proof.
  apply (rate_limit_without_headers_is_not_retried string 0 noDate
           numberToString invalidDate tokenGranted (Ok tt) None (Ok tt)
           (fun _ _ _ => Throw (newError "429 Too Many Requests"))
           (Some "groq/llama-70b") (Some groqKey)
           (newError "429 Too Many Requests") 3);
    [lia|reflexivity|reflexivity|reflexivity|reflexivity|reflexivity].
Defined.

End ErrorMappingWitnesses.

Section Routing.

Import Js Agent.
Local Open Scope string_scope.

Lemma cutAt_spec (sep : ascii) (m p rest : string) :
  cutAt sep m = Some (p, rest) ->
  m = p ++ String sep rest /\ hd EmptyString (splitChar sep m) = p.
Proof.
  revert p. induction m as [|c m IH]; intros p H; cbn in H; [discriminate|].
  cbn [splitChar]. destruct (Ascii.eqb_spec c sep) as [->|Hne].
  - injection H as <- <-. split; reflexivity.
  - destruct (cutAt sep m) as [[a b]|]; [|discriminate].
    injection H as <- <-. destruct (IH a eq_refl) as [-> Hhd].
    rewrite hd_onHead, Hhd. split; reflexivity.
Qed.

(** X15. For a model written [provider/name] with a provider that is not
    empty, the dispatcher and the retry loop agree on the provider, which
    is the text before the first slash; the model name is everything after
    it, later slashes included, and the two parts give the model back. *)
Theorem prefixed_model_routing (m p rest : string) :
  cutAt "/" m = Some (p, rest) -> p <> "" ->
  parseModel (Some m) = (p, rest) /\
  rateProvider (Some m) = p /\
  m = p ++ "/" ++ rest.
Proof.
  intros Hcut Hp. destruct (cutAt_spec "/" m p rest Hcut) as [Hm Hhd].
  repeat split.
  - unfold parseModel. destruct m as [|c m]; [discriminate|].
    rewrite Hcut. reflexivity.
  - unfold rateProvider. rewrite Hhd. destruct p; [contradiction|reflexivity].
  - exact Hm.
Qed.

Lemma prefixed_model_routing_witness :
  parseModel (Some "groq/openai/gpt-oss-120b") = ("groq", "openai/gpt-oss-120b")
  /\ rateProvider (Some "groq/openai/gpt-oss-120b") = "groq"
  /\ "groq/openai/gpt-oss-120b" = "groq" ++ "/" ++ "openai/gpt-oss-120b".
Proof.
  apply prefixed_model_routing; [reflexivity|discriminate].
Defined.

End Routing.

(* ------------------------------------------------------------------ *)
(** ** The assembly of the messages                                     *)
(* ------------------------------------------------------------------ *)

Section AssemblyFacts.

Import Js TokenOptimizer Assembly.
Local Open Scope string_scope.
Local Open Scope Z_scope.

Lemma sliceLast_suffix {A : Type} (n : nat) (xs : list A) :
  xs = (firstn (length xs - n) xs ++ sliceLast n xs)%list /\
  (length (sliceLast n xs) <= n)%nat.
Proof.
  unfold sliceLast. split.
  - symmetry. apply firstn_skipn.
  - rewrite length_skipn. lia.
Qed.

(** X16. The messages sent to the provider are entries of the transcript,
    unchanged and in order, followed by exactly one [user] message.  The
    entries are a tail of the transcript: none when the transcript is not
    included, all of it when the whole context has at most 48000
    characters, and otherwise its last three at most. *)
Theorem assembled_messages_shape (instructions : string)
    (includeChatHistory : bool) (chatHistory : list message) :
  exists dropped kept c,
    assembleMessages instructions includeChatHistory chatHistory
      = (kept ++ [user c])%list /\
    chatHistory = (dropped ++ kept)%list /\
    (includeChatHistory = false -> kept = []) /\
    (includeChatHistory = true ->
     len (fullContext instructions includeChatHistory chatHistory) <= 48000 ->
     kept = chatHistory) /\
    (48000 < len (fullContext instructions includeChatHistory chatHistory) ->
     (length kept <= 3)%nat).
Proof.
  unfold assembleMessages.
  set (context := fullContext instructions includeChatHistory chatHistory).
  pose proof (isPromptTooLong_iff context 15000) as Hlong.
  change (4 * (4 * 15000 / 5)) with 48000 in Hlong.
  set (content1 := if 25000 <? estimateTokenCount context
                   then optimizeIfSet (contextualPrompt instructions) 3000
                   else contextualPrompt instructions).
  assert (Hinc : withHistory includeChatHistory chatHistory = false ->
                 includeChatHistory = true -> chatHistory = []).
  { unfold withHistory. intros Hw ->. destruct chatHistory; [reflexivity|].
    cbn in Hw. discriminate. }
  assert (Hoff : withHistory includeChatHistory chatHistory = true ->
                 includeChatHistory = false -> False).
  { unfold withHistory. intros Hw ->. discriminate. }
  destruct (isPromptTooLong context 15000) eqn:Etrip.
  - assert (Hbig : 48000 < len context) by (apply Hlong; reflexivity).
    destruct (withHistory includeChatHistory chatHistory) eqn:Ewith.
    + destruct (sliceLast_suffix 3 chatHistory) as [Hsuf Hlen].
      exists (firstn (length chatHistory - 3) chatHistory),
        (sliceLast 3 chatHistory), (optimizeIfSet content1 5000).
      split; [reflexivity|]. split; [exact Hsuf|]. split; [|split].
      * intros H. exfalso. apply Hoff; [reflexivity|exact H].
      * intros _ Hsmall. lia.
      * intros _. exact Hlen.
    + exists chatHistory, [], (optimizeIfSet content1 5000).
      split; [reflexivity|]. split; [symmetry; apply app_nil_r|].
      split; [|split].
      * reflexivity.
      * intros _ Hsmall. lia.
      * intros _. cbn. lia.
  - assert (Hsmall : len context <= 48000).
    { destruct (Z.le_gt_cases (len context) 48000) as [H|H]; [exact H|].
      apply Hlong in H. discriminate. }
    destruct (withHistory includeChatHistory chatHistory) eqn:Ewith.
    + exists [], chatHistory, content1.
      split; [reflexivity|]. split; [reflexivity|]. split; [|split].
      * intros H. exfalso. apply Hoff; [reflexivity|exact H].
      * reflexivity.
      * intros H. lia.
    + exists chatHistory, [], content1.
      split; [reflexivity|]. split; [symmetry; apply app_nil_r|].
      split; [|split].
      * reflexivity.
      * intros H _. symmetry. apply Hinc; [reflexivity|exact H].
      * intros H. lia.
Qed.

Lemma optimizeIfSet_is_optimizePrompt (c : string) (maxTokens : Z) :
  0 <= maxTokens -> optimizeIfSet c maxTokens = optimizePrompt c maxTokens.
Proof.
  intros H. destruct c as [|a c]; [|reflexivity].
  cbn. unfold optimizePrompt. cbn.
  destruct (Z.leb_spec 0 maxTokens); [reflexivity|lia].
Qed.

(** X17. When the circuit breaker trips (more than 25000 estimated tokens
    in the whole context), the whole-context check trips as well, so the
    user message is shrunk twice: to the limit 3000 and then, from that
    result, to the limit 5000; and at most three entries of the transcript
    are kept. *)
Theorem circuit_breaker_shrinks_twice (instructions : string)
    (includeChatHistory : bool) (chatHistory : list message) :
  25000 < estimateTokenCount
            (fullContext instructions includeChatHistory chatHistory) ->
  isPromptTooLong (fullContext instructions includeChatHistory chatHistory)
    15000 = true /\
  exists kept,
    (length kept <= 3)%nat /\
    assembleMessages instructions includeChatHistory chatHistory =
      (kept ++ [user (optimizePrompt
                        (optimizePrompt (contextualPrompt instructions) 3000)
                        5000)])%list.
Proof.
  intros Hbreak.
  set (context := fullContext instructions includeChatHistory chatHistory) in *.
  assert (Htrip : isPromptTooLong context 15000 = true).
  { unfold isPromptTooLong. apply Z.ltb_lt. lia. }
  split; [exact Htrip|].
  unfold assembleMessages. fold context. rewrite Htrip.
  apply Z.ltb_lt in Hbreak. rewrite Hbreak.
  rewrite !optimizeIfSet_is_optimizePrompt by lia.
  destruct (withHistory includeChatHistory chatHistory).
  - exists (sliceLast 3 chatHistory). split; [|reflexivity].
    apply sliceLast_suffix.
  - exists []. split; [cbn; lia|reflexivity].
Qed.

(** Five short entries and a short instruction: all are sent. *)
Lemma assembled_messages_shape_witness :
  let h := [user "one"; user "two"; user "three"; user "four"; user "five"] in
  exists dropped kept c,
    assembleMessages "Summarise" true h = (kept ++ [user c])%list /\
    h = (dropped ++ kept)%list /\ kept = h.
Proof.
  intros h.
  destruct (assembled_messages_shape "Summarise" true h)
    as (dropped & kept & c & Hm & Hh & _ & Hall & _).
  exists dropped, kept, c. split; [exact Hm|]. split; [exact Hh|].
  apply Hall; [reflexivity|]. vm_compute. discriminate.
Defined.

(** An instruction of 100001 letters, without transcript. *)
Lemma circuit_breaker_shrinks_twice_witness :
  exists kept,
    (length kept <= 3)%nat /\
    assembleMessages (filler 100001) false [] =
      (kept ++ [user (optimizePrompt
                        (optimizePrompt (contextualPrompt (filler 100001)) 3000)
                        5000)])%list.
Proof.
  apply (circuit_breaker_shrinks_twice (filler 100001) false []).
  vm_compute. reflexivity.
Defined.

(** A text of 20001 letters under the limit 100. *)
Lemma large_content_is_cut_to_size_witness :
  len (optimizePrompt (filler 20001) 100) <= 4 * 100 + 31.
Proof.
  apply (proj2 (large_content_is_cut_to_size (filler 20001) 100 ltac:(lia))).
  vm_compute. reflexivity.
Defined.

End AssemblyFacts.

(* ------------------------------------------------------------------ *)
(** ** Tool resolver: migration laws and the other queries              *)
(* ------------------------------------------------------------------ *)

Section MigrationLaws.

Import Resolver Scenario.
Local Open Scope string_scope.

Lemma migrate_steps (o : object) :
  migrateMCPData (VObj o) = VObj (ensureArray (rewriteTools (rewriteMcpTools o))).
Proof. reflexivity. Qed.

Lemma getField_deleteField_same k o : getField k (deleteField k o) = VUndefined.
Proof.
  induction o as [|[k' v'] o IH]; cbn; [reflexivity|].
  destruct (String.eqb k k') eqn:E; cbn; [exact IH|]. rewrite E. exact IH.
Qed.

Lemma hasField_setField_other k k' v o :
  k <> k' -> hasField k (setField k' v o) = hasField k o.
Proof.
  intros Hne. apply String.eqb_neq in Hne.
  induction o as [|[k2 v2] o IH]; cbn.
  - rewrite Hne. reflexivity.
  - destruct (String.eqb k' k2) eqn:E; cbn; [reflexivity|].
    rewrite IH. reflexivity.
Qed.

Lemma hasField_deleteField_other k k' o :
  k <> k' -> hasField k (deleteField k' o) = hasField k o.
Proof.
  intros Hne. induction o as [|[k2 v2] o IH]; cbn; [reflexivity|].
  destruct (String.eqb k' k2) eqn:E; cbn.
  - apply String.eqb_eq in E. subst k2.
    apply String.eqb_neq in Hne. rewrite Hne. exact IH.
  - rewrite IH. reflexivity.
Qed.

(** What each rewrite leaves of the fields it does not own. *)
Lemma rewriteMcpTools_other k o :
  k <> "mcpTools" -> k <> "mcpServerIds" ->
  getField k (rewriteMcpTools o) = getField k o.
Proof.
  intros H1 H2. unfold rewriteMcpTools.
  destruct (getField "mcpTools" o) as [| | | | |tools|]; try reflexivity.
  destruct (existsb typeofString tools); [|reflexivity].
  rewrite getField_deleteField_other, getField_setField_other; auto.
Qed.

Lemma rewriteTools_other k o :
  k <> "tools" -> k <> "mcpServerIds" ->
  getField k (rewriteTools o) = getField k o.
Proof.
  intros H1 H2. unfold rewriteTools.
  destruct (getField "tools" o) as [| | | | |tools|]; try reflexivity.
  destruct (forallb typeofString tools); [|reflexivity].
  rewrite getField_deleteField_other, getField_setField_other; auto.
Qed.

Lemma ensureArray_other k o :
  k <> "mcpServerIds" -> getField k (ensureArray o) = getField k o.
Proof.
  intros H. unfold ensureArray.
  destruct (getField "mcpServerIds" o) as [| |b|n|str|l|fs]; cbn [truthy];
    try reflexivity;
    try match goal with
        | |- getField _ (if ?c then _ else _) = _ => destruct c
        end;
    rewrite ?getField_setField_other by exact H; reflexivity.
Qed.

Lemma rewriteMcpTools_settled o :
  noIdsUnderMcpTools (getField "mcpTools" o) -> rewriteMcpTools o = o.
Proof.
  unfold rewriteMcpTools, noIdsUnderMcpTools.
  destruct (getField "mcpTools" o); try reflexivity. intros ->. reflexivity.
Qed.

Lemma rewriteTools_settled o :
  notAllIds (getField "tools" o) -> rewriteTools o = o.
Proof.
  unfold rewriteTools, notAllIds.
  destruct (getField "tools" o); try reflexivity. intros ->. reflexivity.
Qed.

Lemma ensureArray_settled o :
  arrayOrFalsy (getField "mcpServerIds" o) -> ensureArray o = o.
Proof.
  unfold ensureArray, arrayOrFalsy.
  destruct (getField "mcpServerIds" o); try reflexivity; intros ->; reflexivity.
Qed.

Lemma rewriteMcpTools_done o :
  noIdsUnderMcpTools (getField "mcpTools" (rewriteMcpTools o)).
Proof.
  unfold rewriteMcpTools.
  destruct (getField "mcpTools" o) as [| | | | |tools|] eqn:E;
    try (rewrite E; exact I).
  destruct (existsb typeofString tools) eqn:Ex.
  - rewrite getField_deleteField_same. exact I.
  - rewrite E. exact Ex.
Qed.

Lemma rewriteTools_done o : notAllIds (getField "tools" (rewriteTools o)).
Proof.
  unfold rewriteTools.
  destruct (getField "tools" o) as [| | | | |tools|] eqn:E;
    try (rewrite E; exact I).
  destruct (forallb typeofString tools) eqn:Ex.
  - rewrite getField_deleteField_same. exact I.
  - rewrite E. exact Ex.
Qed.

Lemma ensureArray_done o :
  arrayOrFalsy (getField "mcpServerIds" (ensureArray o)).
Proof.
  unfold ensureArray.
  destruct (getField "mcpServerIds" o) as [| |b|n|str|l|fs] eqn:E.
  - cbn [truthy]. rewrite E. reflexivity.
  - cbn [truthy]. rewrite E. reflexivity.
  - destruct b; cbn [truthy].
    + rewrite getField_setField_same. exact I.
    + rewrite E. reflexivity.
  - cbn [truthy]. destruct (negb (n =? 0)%Z) eqn:En.
    + rewrite getField_setField_same. exact I.
    + rewrite E. exact En.
  - cbn [truthy]. destruct (negb (String.eqb str "")) eqn:Es.
    + rewrite getField_setField_same. exact I.
    + rewrite E. exact Es.
  - rewrite E. exact I.
  - cbn [truthy]. rewrite getField_setField_same. exact I.
Qed.

(** X18. [migrateMCPData] is idempotent on configuration objects: a
    migrated configuration is migrated to itself. *)
Theorem migrateMCPData_idempotent (config : object) :
  migrateMCPData (migrateMCPData (VObj config)) = migrateMCPData (VObj config).
Proof.
  rewrite !migrate_steps.
  set (o3 := ensureArray (rewriteTools (rewriteMcpTools config))).
  assert (H1 : rewriteMcpTools o3 = o3).
  { apply rewriteMcpTools_settled. subst o3.
    rewrite ensureArray_other, rewriteTools_other by discriminate.
    apply rewriteMcpTools_done. }
  assert (H2 : rewriteTools o3 = o3).
  { apply rewriteTools_settled. subst o3.
    rewrite ensureArray_other by discriminate. apply rewriteTools_done. }
  assert (H3 : ensureArray o3 = o3).
  { apply ensureArray_settled. subst o3. apply ensureArray_done. }
  rewrite H1, H2, H3. reflexivity.
Qed.

(** X19. After migration [mcpServerIds] is an array or falsy, which is what
    the executor relies on when it reads its length; a single id given as
    a string comes back as the array of that id. *)
Theorem migrated_ids_are_an_array (config : object) :
  (exists migrated,
      migrateMCPData (VObj config) = VObj migrated /\
      arrayOrFalsy (getField "mcpServerIds" migrated))
  /\
  (forall id,
      id <> "" ->
      getField "mcpServerIds" config = VStr id ->
      noIdsUnderMcpTools (getField "mcpTools" config) ->
      notAllIds (getField "tools" config) ->
      migrateMCPData (VObj config)
        = VObj (setField "mcpServerIds" (VArr [VStr id]) config)).
Proof.
  split.
  - exists (ensureArray (rewriteTools (rewriteMcpTools config))).
    split; [apply migrate_steps|]. apply ensureArray_done.
  - intros id Hid Hids Hmcp Htools. rewrite migrate_steps.
    rewrite (rewriteMcpTools_settled config Hmcp).
    rewrite (rewriteTools_settled config Htools).
    unfold ensureArray. rewrite Hids. cbn [truthy].
    apply String.eqb_neq in Hid. rewrite Hid. reflexivity.
Qed.

Lemma migrated_ids_are_an_array_witness :
  migrateMCPData (VObj [("mcpServerIds", VStr "a")])
    = VObj [("mcpServerIds", VArr [VStr "a"])].
Proof.
  apply (proj2 (migrated_ids_are_an_array [("mcpServerIds", VStr "a")]) "a");
    [discriminate|reflexivity|exact I|exact I].
Defined.

(** X20. When ids are listed under both legacy fields, those under [tools]
    win: the result has the [tools] ids as [mcpServerIds] and neither
    legacy field, so the ids that were under [mcpTools] are gone. *)
Theorem tools_ids_replace_mcpTools_ids (config : object)
    (mcpTools : list value) (ids : list string) :
  getField "mcpTools" config = VArr mcpTools ->
  existsb typeofString mcpTools = true ->
  getField "tools" config = VArr (map VStr ids) ->
  exists migrated,
    migrateMCPData (VObj config) = VObj migrated /\
    getField "mcpServerIds" migrated = VArr (map VStr ids) /\
    hasField "mcpTools" migrated = false /\
    hasField "tools" migrated = false.
Proof.
  intros Hmcp Hsome Htools. rewrite migrate_steps.
  assert (H1 : rewriteMcpTools config =
               deleteField "mcpTools"
                 (setField "mcpServerIds" (VArr mcpTools) config)).
  { unfold rewriteMcpTools. rewrite Hmcp, Hsome. reflexivity. }
  assert (Ht1 : getField "tools" (rewriteMcpTools config) = VArr (map VStr ids)).
  { rewrite rewriteMcpTools_other by discriminate. exact Htools. }
  assert (H2 : rewriteTools (rewriteMcpTools config) =
               deleteField "tools"
                 (setField "mcpServerIds" (VArr (map VStr ids))
                    (rewriteMcpTools config))).
  { unfold rewriteTools. rewrite Ht1, forallb_strings. reflexivity. }
  assert (Hids : getField "mcpServerIds" (rewriteTools (rewriteMcpTools config))
                 = VArr (map VStr ids)).
  { rewrite H2, getField_deleteField_other by discriminate.
    apply getField_setField_same. }
  assert (H3 : ensureArray (rewriteTools (rewriteMcpTools config))
               = rewriteTools (rewriteMcpTools config)).
  { apply ensureArray_settled. rewrite Hids. exact I. }
  eexists. split; [reflexivity|]. rewrite H3.
  split; [exact Hids|]. rewrite H2. split.
  - rewrite hasField_deleteField_other, hasField_setField_other by discriminate.
    rewrite H1. apply hasField_deleteField_same.
  - apply hasField_deleteField_same.
Qed.

Lemma tools_ids_replace_mcpTools_ids_witness :
  migrateMCPData (VObj [("mcpTools", VArr [VStr "a"]);
                        ("tools", VArr [VStr "b"])])
    = VObj [("mcpServerIds", VArr [VStr "b"])].
Proof.
  destruct (tools_ids_replace_mcpTools_ids
              [("mcpTools", VArr [VStr "a"]); ("tools", VArr [VStr "b"])]
              [VStr "a"] ["b"] eq_refl eq_refl eq_refl)
    as (migrated & Hm & _).
  rewrite Hm. symmetry. exact Hm.
Defined.

End MigrationLaws.

Section StoreQueries.

Import Resolver Scenario.
Local Open Scope string_scope.

Lemma sqlStore_by_id (table : list object) (ids : list value) :
  sqlStore table selectServers ids = Ok (filter (rowSelected ids) table) /\
  sqlStore table selectServer ids = Ok (filter (rowSelected ids) table).
Proof. split; reflexivity. Qed.

Lemma hd_error_map {A B : Type} (f : A -> B) (l : list A) :
  hd_error (map f l) = option_map f (hd_error l).
Proof. destruct l; reflexivity. Qed.

(** X21. [resolveMCPServer] never throws: it gives [null] for an empty
    id, without asking the store, and when the store fails.  Against the
    table it gives the first of the configurations that [resolveMCPServers]
    gives for the list of that one id, or [null] when there is none. *)
Theorem single_resolution_is_head_of_batch :
  (forall db serverId,
      exists answer, fst (resolveMCPServer db serverId) = Ok answer)
  /\
  (forall db, resolveMCPServer db "" = (Ok None, []))
  /\
  (forall table serverId,
      serverId <> "" ->
      exists configs,
        fst (resolveMCPServers (sqlStore table) (Some [VStr serverId]))
          = Ok configs /\
        fst (resolveMCPServer (sqlStore table) serverId) = Ok (hd_error configs)).
Proof.
  split; [|split].
  - intros db [|c serverId]; cbn; [eauto|].
    destruct (db selectServer [VStr (String c serverId)]) as [[|row rows]|e];
      cbn; eauto.
  - reflexivity.
  - intros table [|c serverId] Hne; [contradiction|].
    exists (map toExecutorFormat
              (filter (rowSelected [VStr (String c serverId)]) table)).
    split; [reflexivity|].
    cbn [resolveMCPServer fst].
    rewrite (proj2 (sqlStore_by_id table [VStr (String c serverId)])).
    rewrite hd_error_map.
    destruct (filter (rowSelected [VStr (String c serverId)]) table);
      reflexivity.
Qed.

Lemma single_resolution_is_head_of_batch_witness :
  exists configs,
    fst (resolveMCPServers (sqlStore [serverA; serverOff]) (Some [VStr "a"]))
      = Ok configs /\
    fst (resolveMCPServer (sqlStore [serverA; serverOff]) "a")
      = Ok (hd_error configs).
Proof.
  apply (proj2 (proj2 single_resolution_is_head_of_batch)
           [serverA; serverOff] "a").
  discriminate.
Defined.

Lemma In_filter_rows (keep : object -> bool) (table : list object) :
  Forall (fun row => keep row = true) (filter keep table) /\
  incl (filter keep table) table.
Proof.
  split.
  - apply Forall_forall. intros row Hin. apply filter_In in Hin. tauto.
  - intros row Hin. apply filter_In in Hin. tauto.
Qed.

(** X22. The flag [enabled] is looked at by [getAllMCPServers] only: the
    servers it lists are rows of the user with [enabled = true], while a
    server that is disabled is still resolved by its id. *)
Theorem disabled_server_still_resolves (table : list object) :
  (forall userId,
      exists rows,
        fst (getAllMCPServers (sqlStore table) userId)
          = Ok (map toExecutorFormat rows) /\
        incl rows table /\
        Forall (fun row => getField "enabled" row = VBool true /\
                           getField "userId" row = VStr userId) rows)
  /\
  (forall row id,
      In row table ->
      getField "id" row = VStr id ->
      exists configs,
        fst (resolveMCPServers (sqlStore table) (Some [VStr id])) = Ok configs /\
        In (toExecutorFormat row) configs).
Proof.
  split.
  - intros userId. eexists. split; [reflexivity|].
    match goal with
    | |- incl (filter ?keep table) table /\ _ =>
        destruct (In_filter_rows keep table) as [Hall Hincl]
    end.
    split; [exact Hincl|].
    apply Forall_forall. intros row Hin.
    rewrite Forall_forall in Hall. specialize (Hall row Hin). cbn in Hall.
    destruct (getField "userId" row) as [| | | |owner| |]; try discriminate.
    destruct (getField "enabled" row) as [| |[|]| | | |]; try discriminate.
    apply String.eqb_eq in Hall. subst owner. split; reflexivity.
  - intros row id Hin Hid.
    exists (map toExecutorFormat (filter (rowSelected [VStr id]) table)).
    split; [reflexivity|].
    apply in_map. apply filter_In. split; [exact Hin|].
    unfold rowSelected. rewrite Hid. cbn. rewrite String.eqb_refl. reflexivity.
Qed.

Lemma disabled_server_still_resolves_witness :
  fst (getAllMCPServers (sqlStore [serverA; serverOff]) "u1")
    = Ok [toExecutorFormat serverA] /\
  exists configs,
    fst (resolveMCPServers (sqlStore [serverA; serverOff]) (Some [VStr "off"]))
      = Ok configs /\
    In (toExecutorFormat serverOff) configs.
Proof.
  split; [reflexivity|].
  apply (proj2 (disabled_server_still_resolves [serverA; serverOff])
           serverOff "off"); [right; left; reflexivity|reflexivity].
Defined.

Lemma existsb_isId (s : string) (ids : list string) :
  existsb (isId s) (map VStr ids) = true <-> In s ids.
Proof.
  induction ids as [|i ids IH]; cbn; [split; [discriminate|tauto]|].
  rewrite orb_true_iff, IH, String.eqb_eq. split; intros [H|H]; auto.
Qed.

Lemma rowSelected_same_ids (ids ids' : list string) (row : object) :
  (forall s, In s ids <-> In s ids') ->
  rowSelected (map VStr ids) row = rowSelected (map VStr ids') row.
Proof.
  intros Hsame. unfold rowSelected.
  destruct (getField "id" row) as [| | | |s| |]; try reflexivity.
  destruct (existsb (isId s) (map VStr ids)) eqn:E;
    destruct (existsb (isId s) (map VStr ids')) eqn:E'; try reflexivity.
  - apply existsb_isId, Hsame, existsb_isId in E. congruence.
  - apply existsb_isId, Hsame, existsb_isId in E'. congruence.
Qed.

(** X23. The answer of [resolveMCPServers] depends on which ids are in the
    list, not on their order or on repetitions: two lists with the same
    ids resolve to the same configurations, in the order of the rows of
    the store, and there are never more configurations than rows. *)
Theorem resolution_ignores_order_and_repeats (table : list object)
    (ids ids' : list string) :
  (forall s, In s ids <-> In s ids') ->
  fst (resolveMCPServers (tableStore table) (Some (map VStr ids))) =
  fst (resolveMCPServers (tableStore table) (Some (map VStr ids')))
  /\
  exists configs,
    fst (resolveMCPServers (tableStore table) (Some (map VStr ids)))
      = Ok configs /\
    (length configs <= length table)%nat.
Proof.
  intros Hsame. rewrite !resolve_ids. split.
  - f_equal. f_equal. apply filter_ext. intros row.
    apply rowSelected_same_ids. exact Hsame.
  - eexists. split; [reflexivity|].
    rewrite length_map. apply filter_length_le.
Qed.

Lemma resolution_ignores_order_and_repeats_witness :
  fst (resolveMCPServers (tableStore [serverA; serverOff])
         (Some [VStr "off"; VStr "a"; VStr "off"])) =
  fst (resolveMCPServers (tableStore [serverA; serverOff])
         (Some [VStr "a"; VStr "off"])).
Proof.
  apply (resolution_ignores_order_and_repeats [serverA; serverOff]
           ["off"; "a"; "off"] ["a"; "off"]).
  intros s. cbn. tauto.
Defined.

(** X24. A node that lists its tool ids under the legacy field [tools] gets
    the same tools, by the same query, as a node that lists them under
    [mcpServerIds]. *)
Theorem legacy_ids_resolve_like_canonical
    (db : string -> list value -> res (list object))
    (config : object) (id : string) (ids : list string) :
  getField "tools" config = VArr (map VStr (id :: ids)) ->
  resolveNodeTools db config =
  resolveNodeTools db [("mcpServerIds", VArr (map VStr (id :: ids)))].
Proof.
  intros Htools.
  assert (Hids : getField "mcpServerIds"
                   (ensureArray (rewriteTools (rewriteMcpTools config)))
                 = VArr (map VStr (id :: ids))).
  { assert (Ht1 : getField "tools" (rewriteMcpTools config)
                  = VArr (map VStr (id :: ids)))
      by (rewrite rewriteMcpTools_other by discriminate; exact Htools).
    assert (H2 : getField "mcpServerIds" (rewriteTools (rewriteMcpTools config))
                 = VArr (map VStr (id :: ids))).
    { unfold rewriteTools. rewrite Ht1, forallb_strings.
      rewrite getField_deleteField_other by discriminate.
      apply getField_setField_same. }
    rewrite ensureArray_settled; [exact H2|]. rewrite H2. exact I. }
  unfold resolveNodeTools at 1. rewrite migrate_steps, Hids.
  reflexivity.
Qed.

Lemma legacy_ids_resolve_like_canonical_witness :
  resolveNodeTools (tableStore [serverA; serverOff]) idsConfig =
  resolveNodeTools (tableStore [serverA; serverOff])
    [("mcpServerIds", VArr [VStr "id1"; VStr "id2"])].
Proof.
  apply (legacy_ids_resolve_like_canonical (tableStore [serverA; serverOff])
           idsConfig "id1" ["id2"]).
  reflexivity.
Defined.

End StoreQueries.

(* ------------------------------------------------------------------ *)
(** ** Approval records: writes and what the reads see                  *)
(* ------------------------------------------------------------------ *)

Section ApprovalLaws.

Import Approvals Scenario.
Local Open Scope string_scope.

(** The row function of the [UPDATE] of [updateApprovalStatus]. *)
Local Abbreviation decide i s by_ now :=
  (fun a : Approval =>
     if String.eqb (approvalId a) i then setStatus s by_ now a else a).

Lemma decide_keeps_id i s by_ now a :
  approvalId (decide i s by_ now a) = approvalId a.
Proof. cbn. destruct (String.eqb (approvalId a) i); reflexivity. Qed.

Lemma filter_decided i s by_ now (t : table) :
  filter (fun a => String.eqb (approvalId a) i) (map (decide i s by_ now) t)
  = map (setStatus s by_ now) (filter (fun a => String.eqb (approvalId a) i) t).
Proof.
  induction t as [|a t IH]; [reflexivity|]. cbn [map filter].
  destruct (String.eqb (approvalId a) i) eqn:E.
  - cbn [approvalId setStatus]. rewrite E. cbn [map]. rewrite IH. reflexivity.
  - rewrite E. exact IH.
Qed.

Lemma decide_nothing i s by_ now (t : table) :
  filter (fun a => String.eqb (approvalId a) i) t = [] ->
  map (decide i s by_ now) t = t.
Proof.
  induction t as [|a t IH]; [reflexivity|]. cbn [map filter].
  destruct (String.eqb (approvalId a) i) eqn:E; [discriminate|].
  intros H. rewrite (IH H). reflexivity.
Qed.

(** X25. What [updateApprovalStatus] returns is what the reads see next.
    For an approval id without a record it returns [null], the table is as
    before, and [watchApprovalStatus] says [not_found]; otherwise it
    returns the record that [watchApprovalStatus] then finds, with the
    decision as its status and the responder and the time written in. *)
Theorem decision_is_what_watch_sees (i : string) (s : decision)
    (by_ : option string) (now : string) (t : table) :
  let t' := fst (updateApprovalStatus i s by_ now t) in
  let returned := snd (updateApprovalStatus i s by_ now t) in
  getApprovalById i t' = returned /\
  (getApprovalById i t = None ->
   returned = None /\ t' = t /\ watchApprovalStatus i t' = not_found) /\
  (forall before, getApprovalById i t = Some before ->
     returned = Some (setStatus s by_ now before) /\
     watchApprovalStatus i t'
       = found (statusOf s) (setStatus s by_ now before)).
Proof.
  cbn zeta. unfold updateApprovalStatus, watchApprovalStatus, getApprovalById.
  cbn [fst snd]. rewrite filter_decided.
  split; [reflexivity|]. split.
  - intros Hnone.
    destruct (filter (fun a => String.eqb (approvalId a) i) t) as [|a l] eqn:E;
      [|discriminate].
    rewrite (decide_nothing i s by_ now t E). repeat split.
  - intros before Hsome.
    destruct (filter (fun a => String.eqb (approvalId a) i) t) as [|a l];
      [discriminate|].
    injection Hsome as ->. split; reflexivity.
Qed.

Lemma decision_is_what_watch_sees_witness :
  watchApprovalStatus "ap1"
    (fst (updateApprovalStatus "ap1" approve (Some "alice") "t1"
            [pendingApproval]))
  = found approved (setStatus approve (Some "alice") "t1" pendingApproval)
  /\
  fst (updateApprovalStatus "other" approve None "t1" [pendingApproval])
    = [pendingApproval].
Proof.
  split.
  - apply (proj2 (proj2 (decision_is_what_watch_sees "ap1" approve
                           (Some "alice") "t1" [pendingApproval]))
             pendingApproval eq_refl).
  - apply (proj1 (proj2 (decision_is_what_watch_sees "other" approve None "t1"
                           [pendingApproval])) eq_refl).
Defined.

(** X26. The last write wins and writes to different approvals do not
    interfere: a second decision on the same approval id leaves the table
    as if only the second had been made, and decisions on two different
    ids give the same table in either order. *)
Theorem decisions_compose (t : table) (i j : string) (s1 s2 : decision)
    (by1 by2 : option string) (now1 now2 : string) :
  fst (updateApprovalStatus i s2 by2 now2
         (fst (updateApprovalStatus i s1 by1 now1 t)))
    = fst (updateApprovalStatus i s2 by2 now2 t)
  /\
  (i <> j ->
   fst (updateApprovalStatus j s2 by2 now2
          (fst (updateApprovalStatus i s1 by1 now1 t)))
   = fst (updateApprovalStatus i s1 by1 now1
            (fst (updateApprovalStatus j s2 by2 now2 t)))).
Proof.
  unfold updateApprovalStatus. cbn [fst]. rewrite !map_map. split.
  - apply map_ext. intros a.
    destruct (String.eqb (approvalId a) i) eqn:E; cbn [approvalId setStatus];
      rewrite E; reflexivity.
  - intros Hne. apply map_ext. intros a.
    destruct (String.eqb (approvalId a) i) eqn:Ei;
      destruct (String.eqb (approvalId a) j) eqn:Ej;
      cbn [approvalId setStatus]; rewrite ?Ei, ?Ej; try reflexivity.
    apply String.eqb_eq in Ei, Ej. congruence.
Qed.

Lemma decisions_compose_witness :
  fst (updateApprovalStatus "ap2" reject None "t2"
         (fst (updateApprovalStatus "ap1" approve None "t1" [pendingApproval])))
  = fst (updateApprovalStatus "ap1" approve None "t1"
           (fst (updateApprovalStatus "ap2" reject None "t2" [pendingApproval]))).
Proof.
  apply (proj2 (decisions_compose [pendingApproval] "ap1" "ap2" approve reject
                  None None "t1" "t2")).
  discriminate.
Defined.

Lemma filter_app_one {A : Type} (keep : A -> bool) (l : list A) (x : A) :
  filter keep (l ++ [x]) = (filter keep l ++ (if keep x then [x] else []))%list.
Proof. rewrite filter_app. reflexivity. Qed.

(** X27. A created approval can be read back: the stored record has the
    status it was created with; when no earlier record has its approval
    id, [getApprovalById] and [watchApprovalStatus] find it under that id;
    the reads under every other approval id are as before; and a record
    created as [pending] is on the pending list of its workflow. *)
Theorem created_approval_is_found (newId now : string)
    (a : Approval) (t : table) :
  let t' := fst (createApproval newId now a t) in
  let row := snd (createApproval newId now a t) in
  approvalStatus row = approvalStatus a /\
  (getApprovalById (approvalId a) t = None ->
   getApprovalById (approvalId a) t' = Some row /\
   watchApprovalStatus (approvalId a) t' = found (approvalStatus a) row) /\
  (forall j, j <> approvalId a ->
     getApprovalById j t' = getApprovalById j t) /\
  (approvalStatus a = pending ->
   In row (getPendingApprovals (workflowId a) t')).
Proof.
  cbn zeta. unfold createApproval, watchApprovalStatus, getApprovalById,
    getPendingApprovals.
  cbn [fst snd approvalStatus approvalId workflowId].
  split; [reflexivity|]. split; [|split].
  - intros Hnone. rewrite filter_app_one. cbn [approvalId].
    rewrite String.eqb_refl.
    destruct (filter (fun x => String.eqb (approvalId x) (approvalId a)) t);
      [split; reflexivity|discriminate].
  - intros j Hj. rewrite filter_app_one. cbn [approvalId].
    destruct (String.eqb (approvalId a) j) eqn:E.
    + apply String.eqb_eq in E. congruence.
    + rewrite app_nil_r. reflexivity.
  - intros Hpending. apply filter_In. split.
    + apply in_or_app. right. left. reflexivity.
    + cbn [workflowId approvalStatus]. rewrite String.eqb_refl, Hpending.
      reflexivity.
Qed.

Lemma created_approval_is_found_witness :
  watchApprovalStatus "ap1" (fst (createApproval "1" "t0" pendingApproval []))
    = found pending (snd (createApproval "1" "t0" pendingApproval []))
  /\
  getApprovalById "ap2" (fst (createApproval "1" "t0" pendingApproval []))
    = None.
Proof.
  split.
  - apply (proj1 (proj2 (created_approval_is_found "1" "t0" pendingApproval
                           []))).
    reflexivity.
  - apply (proj1 (proj2 (proj2 (created_approval_is_found "1" "t0"
                                  pendingApproval []))) "ap2").
    discriminate.
Defined.

Lemma pending_after_decision (i : string) (s : decision)
    (by_ : option string) (now : string) (workflow : string) (t : table) :
  getPendingApprovals workflow (fst (updateApprovalStatus i s by_ now t))
  = filter (fun a => negb (String.eqb (approvalId a) i))
      (getPendingApprovals workflow t).
Proof.
  unfold getPendingApprovals, updateApprovalStatus. cbn [fst].
  induction t as [|a t IH]; [reflexivity|]. cbn [map filter].
  destruct (String.eqb (approvalId a) i) eqn:E.
  - cbn [workflowId approvalStatus setStatus].
    replace (match statusOf s with pending => true | _ => false end)
      with false by (destruct s; reflexivity).
    rewrite andb_false_r.
    destruct (String.eqb (workflowId a) workflow
              && match approvalStatus a with pending => true | _ => false end);
      cbn [filter]; rewrite ?E; cbn [negb]; exact IH.
  - destruct (String.eqb (workflowId a) workflow
              && match approvalStatus a with pending => true | _ => false end);
      cbn [filter]; rewrite ?E; cbn [negb]; rewrite IH; reflexivity.
Qed.

(** X28. A decision takes the approval off the pending list of its
    workflow and touches nothing else on it: a record is pending after
    [updateApprovalStatus] exactly when it was pending before and has
    another approval id than the decided one.  This holds for every
    workflow, so the pending lists of the other workflows lose at most
    the records of that approval id. *)
Theorem decided_approval_leaves_pending (i : string) (s : decision)
    (by_ : option string) (now : string) (workflow : string) (t : table)
    (a : Approval) :
  In a (getPendingApprovals workflow (fst (updateApprovalStatus i s by_ now t)))
  <-> In a (getPendingApprovals workflow t) /\ approvalId a <> i.
Proof.
  rewrite pending_after_decision, filter_In. split.
  - intros [Hin Hne]. split; [exact Hin|].
    intros Heq. apply String.eqb_eq in Heq. rewrite Heq in Hne. discriminate.
  - intros [Hin Hne]. split; [exact Hin|].
    destruct (String.eqb (approvalId a) i) eqn:E; [|reflexivity].
    apply String.eqb_eq in E. contradiction.
Qed.

End ApprovalLaws.

(* ------------------------------------------------------------------ *)
(** ** Firecrawl tool client                                            *)
(* ------------------------------------------------------------------ *)

Section FirecrawlFacts.

Import Resolver Firecrawl.
Local Open Scope string_scope.

Variable apiKey : string.
Variable fetch : request -> res response.


(** X30. The requests carry defaults in place of falsy parameters: a crawl
    is never asked with a depth or a limit that is missing or zero (2 and
    10 are sent instead), and a scrape asks for the main content only
    unless [onlyMainContent] is exactly [false]. *)
Theorem firecrawl_requests_carry_defaults (parameters : object) :
  (exists r,
      snd (executeTool apiKey fetch "crawl_website" parameters) = [r] /\
      truthy (getField "maxDepth" (body r)) = true /\
      truthy (getField "limit" (body r)) = true /\
      (truthy (getField "limit" parameters) = false ->
       getField "limit" (body r) = VNum 10) /\
      (truthy (getField "maxDepth" parameters) = false ->
       getField "maxDepth" (body r) = VNum 2))
  /\
  (exists r,
      snd (executeTool apiKey fetch "scrape_url" parameters) = [r] /\
      (getField "onlyMainContent" (body r) = VBool false
       <-> getField "onlyMainContent" parameters = VBool false)).
Proof.
  split.
  - eexists. split; [reflexivity|]. cbn [body getField String.eqb Ascii.eqb
      Bool.eqb]. cbn. unfold orElse.
    destruct (truthy (getField "maxDepth" parameters)) eqn:Ed;
      destruct (truthy (getField "limit" parameters)) eqn:El;
      repeat split; auto; discriminate.
  - eexists. split; [reflexivity|]. cbn.
    destruct (getField "onlyMainContent" parameters) as [| |[|]| | | |];
      cbn; split; intros H; try discriminate; reflexivity.
Qed.

End FirecrawlFacts.

Section FirecrawlWitnesses.

Import Resolver Firecrawl.
Local Open Scope string_scope.


(** A crawl asked with [limit: 0] is sent with the limit 10. *)
Lemma firecrawl_requests_carry_defaults_witness :
  exists r,
    snd (executeTool "fc-key" (fun _ => Throw (newError "offline"))
           "crawl_website" [("url", VStr "https://example.com");
                            ("limit", VNum 0)]) = [r] /\
    getField "limit" (body r) = VNum 10.
Proof.
  destruct (proj1 (firecrawl_requests_carry_defaults "fc-key"
                     (fun _ => Throw (newError "offline"))
                     [("url", VStr "https://example.com"); ("limit", VNum 0)]))
    as (r & Hr & _ & _ & Hlimit & _).
  exists r. split; [exact Hr|]. apply Hlimit. reflexivity.
Defined.

End FirecrawlWitnesses.
